(** * network-monitor: the connection-sampling and rate-attribution core

    A shallow embedding of the two programs of the repository,
    [network-monitor.py] (the terminal monitor) and [network-monitor-gtk.py]
    (the GTK window), restricted to the parts the specification calls the
    core: the process I/O reader, the rate tracker ([prev_io]), the host
    resolution cache with its background lookups, the sort/filter engine and
    the per-cycle summary.

    Python strings are modelled as [string] (byte strings; only the ASCII
    behaviour of [str.lower] and [str.split] is modelled).  The output of the
    external [ss] command, the [/proc/<pid>/io] and [/proc/<pid>/cmdline]
    files are inputs of a cycle ([env]); a cycle reads one snapshot of them. *)

From Stdlib Require Import String Ascii ZArith List Sorting.Sorted
  Sorting.Permutation Lia DecimalString.
From stdpp Require Import base gmap strings list.

Open Scope Z_scope.

(* ------------------------------------------------------------------ *)
(** ** Python string primitives                                         *)
(* ------------------------------------------------------------------ *)

Module Py.

Definition colon : ascii := ":".
Definition newline : ascii := "010".

(** [c in s] for a one-character string [c]. *)
Fixpoint contains_char (c : ascii) (s : string) : bool :=
  match s with
  | EmptyString => false
  | String d r => if Ascii.eqb c d then true else contains_char c r
  end.

(** [s.startswith(p)]. *)
Definition startswith (s p : string) : bool := String.prefix p s.

(** [s.endswith(c)] for a one-character suffix. *)
Fixpoint endswith_char (s : string) (c : ascii) : bool :=
  match s with
  | EmptyString => false
  | String d EmptyString => Ascii.eqb c d
  | String _ r => endswith_char r c
  end.

(** [s.split(c)] with an explicit one-character separator. *)
Fixpoint split_on (c : ascii) (s : string) : list string :=
  match s with
  | EmptyString => [EmptyString]
  | String d r =>
      if Ascii.eqb c d then EmptyString :: split_on c r
      else match split_on c r with
           | [] => [String d EmptyString]
           | w :: ws => String d w :: ws
           end
  end.

(** ASCII characters for which [str.isspace] holds. *)
Definition is_py_space (c : ascii) : bool :=
  let n := nat_of_ascii c in
  (n =? 32)%nat || ((9 <=? n)%nat && (n <=? 13)%nat)
  || ((28 <=? n)%nat && (n <=? 31)%nat).

(** [s.split()]: runs of whitespace separate the words, no empty words. *)
Fixpoint words_go (cur : string) (s : string) : list string :=
  match s with
  | EmptyString => match cur with EmptyString => [] | _ => [cur] end
  | String d r =>
      if is_py_space d then
        match cur with
        | EmptyString => words_go EmptyString r
        | _ => cur :: words_go EmptyString r
        end
      else words_go (cur ++ String d EmptyString)%string r
  end.
Definition split_ws (s : string) : list string := words_go EmptyString s.

(** [s.rsplit(':', 1)]: the part before the last colon and the part after
    it, or [None] when [s] has no colon (Python returns [[s]]). *)
Fixpoint rsplit_colon (s : string) : option (string * string) :=
  match s with
  | EmptyString => None
  | String d r =>
      match rsplit_colon r with
      | Some (a, b) => Some (String d a, b)
      | None => if Ascii.eqb d colon then Some (EmptyString, r) else None
      end
  end.

(** [s.split(':')[0]]. *)
Fixpoint before_first_colon (s : string) : string :=
  match s with
  | EmptyString => EmptyString
  | String d r => if Ascii.eqb d colon then EmptyString
                  else String d (before_first_colon r)
  end.

(** [s[:n]]. *)
Definition take (n : nat) (s : string) : string := substring 0 n s.

(** [s[1:-1]] (for strings of length at least 2). *)
Definition strip_ends (s : string) : string :=
  substring 1 (String.length s - 2) s.

(** [str.lower] on ASCII letters. *)
Definition lower_char (c : ascii) : ascii :=
  let n := nat_of_ascii c in
  if ((65 <=? n)%nat && (n <=? 90)%nat) then ascii_of_nat (n + 32) else c.
Fixpoint lower (s : string) : string :=
  match s with
  | EmptyString => EmptyString
  | String d r => String (lower_char d) (lower r)
  end.

(** [int(tok)] for a token without whitespace: an optional sign, then
    decimal digits where single underscores may separate two digits.
    [None] stands for the [ValueError] Python raises. *)
Definition digit_val (c : ascii) : option Z :=
  let n := nat_of_ascii c in
  if ((48 <=? n)%nat && (n <=? 57)%nat) then Some (Z.of_nat n - 48) else None.

(** [prev_us]: the previous character was an underscore;
    [seen]: at least one digit was read. *)
Fixpoint digits_go (acc : Z) (seen prev_us : bool) (s : string) : option Z :=
  match s with
  | EmptyString => if seen && negb prev_us then Some acc else None
  | String d r =>
      if Ascii.eqb d "_" then
        if seen && negb prev_us then digits_go acc seen true r else None
      else match digit_val d with
           | Some v => digits_go (10 * acc + v) true false r
           | None => None
           end
  end.

Definition int_of_string (s : string) : option Z :=
  match s with
  | String "-" r => option_map Z.opp (digits_go 0 false false r)
  | String "+" r => digits_go 0 false false r
  | _ => digits_go 0 false false s
  end.

End Py.

(* ------------------------------------------------------------------ *)
(** ** Process I/O reader ([get_process_io], both programs)            *)
(* ------------------------------------------------------------------ *)

(** The contents of [/proc/<pid>/io] as the program sees it: [None] when
    [open] or [read] raises (file vanished, permission denied, undecodable). *)
Definition io_file := option string.

(** The body of the [for line in io_data.split('\n')] loop; [None] is an
    exception escaping the loop ([IndexError] of [split()[1]] or the
    [ValueError] of [int]). *)
Definition io_line (acc : Z * Z) (line : string) : option (Z * Z) :=
  let '(rx, tx) := acc in
  if Py.startswith line "rchar:" then
    match nth_error (Py.split_ws line) 1 with
    | Some tok => option_map (fun v => (v, tx)) (Py.int_of_string tok)
    | None => None
    end
  else if Py.startswith line "wchar:" then
    match nth_error (Py.split_ws line) 1 with
    | Some tok => option_map (fun v => (rx, v)) (Py.int_of_string tok)
    | None => None
    end
  else Some acc.

Fixpoint io_loop (acc : Z * Z) (lines : list string) : option (Z * Z) :=
  match lines with
  | [] => Some acc
  | l :: ls => match io_line acc l with
               | Some acc' => io_loop acc' ls
               | None => None
               end
  end.

(** [get_process_io(pid)]: every exception ends in [return 0, 0]. *)
Definition get_process_io (f : io_file) : Z * Z :=
  match f with
  | None => (0, 0)
  | Some io_data =>
      match io_loop (0, 0) (Py.split_on Py.newline io_data) with
      | Some r => r
      | None => (0, 0)
      end
  end.

(** Reading aids for the reader's result (not code of the repository):
    a counter line, its value, a counter line whose value does not parse,
    a counter line whose value is written with a minus sign, and the value
    of the last line with a given prefix ([d] when there is none). *)
Definition field_line (line : string) : bool :=
  Py.startswith line "rchar:" || Py.startswith line "wchar:".
Definition field_value (line : string) : option Z :=
  match nth_error (Py.split_ws line) 1 with
  | Some tok => Py.int_of_string tok
  | None => None
  end.
Definition io_line_fails (line : string) : bool :=
  field_line line && match field_value line with Some _ => false | None => true end.
Definition signed_field (line : string) : bool :=
  field_line line &&
  match nth_error (Py.split_ws line) 1 with
  | Some (String c _) => Ascii.eqb c "-"
  | _ => false
  end.
Fixpoint last_field (d : Z) (p : string) (lines : list string) : Z :=
  match lines with
  | [] => d
  | l :: ls =>
      last_field (if Py.startswith l p
                  then match field_value l with Some v => v | None => d end
                  else d) p ls
  end.

(** [str.strip()]: leading and trailing whitespace removed. *)
Module PyStrip.
Fixpoint lstrip (s : string) : string :=
  match s with
  | String d r => if Py.is_py_space d then lstrip r else s
  | EmptyString => EmptyString
  end.
Fixpoint rstrip (s : string) : string :=
  match s with
  | EmptyString => EmptyString
  | String d r =>
      match rstrip r with
      | EmptyString => if Py.is_py_space d then EmptyString else String d EmptyString
      | r' => String d r'
      end
  end.
Definition strip (s : string) : string := rstrip (lstrip s).
(** [s.replace('\0', ' ')]. *)
Fixpoint replace_nul (s : string) : string :=
  match s with
  | EmptyString => EmptyString
  | String d r => String (if Ascii.eqb d "000" then " "%char else d) (replace_nul r)
  end.
End PyStrip.

(* ------------------------------------------------------------------ *)
(** ** Connection records                                               *)
(* ------------------------------------------------------------------ *)

(** The dictionary built by [get_connections] for one line of [ss]; the
    missing owner is the string sentinel ['N/A'] as in the source. *)
Record conn := mkConn {
  protocol : string;
  cstate : string;
  local : string;
  remote : string;
  program : string;
  pid : string
}.

Definition NA : string := "N/A".

(** A connection after [update_connections] stored its [rx_rate] and
    [tx_rate] keys. *)
Record rconn := mkRConn {
  rc_conn : conn;
  rx_rate : Z;
  tx_rate : Z
}.

(** The environment a cycle observes: the list [get_connections] returns
    (parsing of [ss] is an external collaborator) and the [/proc] files.
    [env_io p] is one content of [/proc/<p>/io] per pid and cycle: both
    programs open the file again for every connection of the pid, and the
    model takes these reads within one cycle to be equal. *)
Record env := mkEnv {
  env_conns : list conn;
  env_io : string -> io_file;
  env_cmdline : string -> option string
}.

(** The special cases shared by both [resolve_address] functions. *)
Definition is_any (addr : string) : bool :=
  String.eqb addr "0.0.0.0:*" || String.eqb addr "*:*" || String.eqb addr "[::]:*".
Definition is_loopback (addr : string) : bool :=
  Py.startswith addr "127.0.0.1:" || Py.startswith addr "[::1]:".
Definition is_mdns (addr : string) : bool := Py.startswith addr "224.0.0.251:".

(* ------------------------------------------------------------------ *)
(** ** The terminal monitor ([network-monitor.py])                      *)
(* ------------------------------------------------------------------ *)

Module Terminal.

(** [resolve_address(addr)]: pure in the terminal program. *)
Definition resolve_address (addr : string) : string :=
  if is_any addr then "ANY"
  else if is_loopback addr then "LOCALHOST"
  else if is_mdns addr then "MDNS"
  else addr.

(** One printed table row: the connection and its two rates. *)
Record printed := mkPrinted { p_conn : conn; p_rx : Z; p_tx : Z }.

(** The colour/activity test [rx_rate > 0 or tx_rate > 0] of a row. *)
Definition row_active (p : printed) : bool := (0 <? p_rx p) || (0 <? p_tx p).

(** What one iteration of [while True] shows: the table with its summary
    [(len(connections), active_connections)], or "No active connections". *)
Inductive screen :=
| NoConnections
| Table (rows : list printed) (total active : nat).

(** The [for conn in connections] loop of [main]: it threads [prev_io]
    (updated in place), the printed rows and [active_connections]. *)
Fixpoint main_loop (io : string -> io_file) (prev_io : gmap string (Z * Z))
    (conns : list conn) : gmap string (Z * Z) * list printed * nat :=
  match conns with
  | [] => (prev_io, [], 0%nat)
  | c :: cs =>
      if String.eqb (resolve_address (remote c)) "LOCALHOST" then
        main_loop io prev_io cs
      else
        let '(rx, tx, prev1) :=
          if String.eqb (pid c) NA then (0, 0, prev_io)
          else
            let '(cur_r, cur_w) := get_process_io (io (pid c)) in
            let '(rx, tx) :=
              match prev_io !! pid c with
              | Some (pr, pw) => (cur_r - pr, cur_w - pw)
              | None => (0, 0)
              end in
            (rx, tx, <[pid c := (cur_r, cur_w)]> prev_io) in
        let '(prev2, rows, act) := main_loop io prev1 cs in
        (prev2, mkPrinted c rx tx :: rows,
         if row_active (mkPrinted c rx tx) then S act else act)
  end.

(** One iteration of the monitoring loop (screen clearing, header and the
    one second sleep are presentation and timing). *)
Definition main_cycle (e : env) (prev_io : gmap string (Z * Z))
    : gmap string (Z * Z) * screen :=
  match env_conns e with
  | [] => (prev_io, NoConnections)
  | conns =>
      let '(prev', rows, act) := main_loop (env_io e) prev_io conns in
      (prev', Table rows (length conns) act)
  end.

End Terminal.

(* ------------------------------------------------------------------ *)
(** ** The GTK window ([network-monitor-gtk.py])                        *)
(* ------------------------------------------------------------------ *)

Module Gtk.

(** A GLib main-loop source: [GLib.timeout_add(.., update_connections)],
    [GLib.idle_add(delayed_refresh)] and
    [GLib.idle_add(update_resolution_cache, addr, resolved)]. *)
Inductive task :=
| TUpdate
| TDelayed
| TCache (addr resolved : string).

(** The attributes of [NetworkMonitorWindow] the core uses, the threads
    started by [resolve_address] and the [Semaphore(5)].  A thread running
    [async_resolve_host(ip_part, full_addr)] is [spawned] until it holds the
    semaphore and [inflight] while it holds it. *)
Record state := mkState {
  prev_io : gmap string (Z * Z);
  sort_column : nat;
  sort_ascending : bool;
  resolve_hosts : bool;
  resolution_cache : gmap string string;
  resolution_pending : gset string;
  spawned : list (string * string);
  inflight : list (string * string);
  sem : nat;
  main_queue : list task;
  shown : list rconn;
  status : option (nat * nat)
}.

Definition set_prev_io (m : gmap string (Z * Z)) (s : state) : state :=
  mkState m (sort_column s) (sort_ascending s) (resolve_hosts s)
    (resolution_cache s) (resolution_pending s) (spawned s) (inflight s)
    (sem s) (main_queue s) (shown s) (status s).
Definition set_sort (col : nat) (asc : bool) (s : state) : state :=
  mkState (prev_io s) col asc (resolve_hosts s)
    (resolution_cache s) (resolution_pending s) (spawned s) (inflight s)
    (sem s) (main_queue s) (shown s) (status s).
Definition set_resolution (on : bool) (c : gmap string string)
    (p : gset string) (s : state) : state :=
  mkState (prev_io s) (sort_column s) (sort_ascending s) on c p
    (spawned s) (inflight s) (sem s) (main_queue s) (shown s) (status s).
Definition set_threads (sp inf : list (string * string)) (n : nat)
    (s : state) : state :=
  mkState (prev_io s) (sort_column s) (sort_ascending s) (resolve_hosts s)
    (resolution_cache s) (resolution_pending s) sp inf n
    (main_queue s) (shown s) (status s).
Definition set_queue (q : list task) (s : state) : state :=
  mkState (prev_io s) (sort_column s) (sort_ascending s) (resolve_hosts s)
    (resolution_cache s) (resolution_pending s) (spawned s) (inflight s)
    (sem s) q (shown s) (status s).
Definition set_view (rows : list rconn) (st : option (nat * nat))
    (s : state) : state :=
  mkState (prev_io s) (sort_column s) (sort_ascending s) (resolve_hosts s)
    (resolution_cache s) (resolution_pending s) (spawned s) (inflight s)
    (sem s) (main_queue s) rows st.

(** The IP part [resolve_address] extracts from an address with a colon:
    [addr.rsplit(':', 1)[0]], without brackets for IPv6. *)
Definition ip_part_of (addr : string) : string :=
  let ip := match Py.rsplit_colon addr with
            | Some (a, _) => a
            | None => addr
            end in
  if Py.startswith ip "[" && Py.endswith_char ip "]" then Py.strip_ends ip
  else ip.

(** [resolve_address(addr)]: returns the display string; starting a
    [threading.Thread(target=async_resolve_host)] appends it to [spawned]. *)
Definition resolve_address (s : state) (addr : string) : string * state :=
  if is_any addr then ("ANY", s)
  else if is_loopback addr then ("LOCALHOST", s)
  else if is_mdns addr then ("MDNS", s)
  else if negb (resolve_hosts s) then (addr, s)
  else match resolution_cache s !! addr with
       | Some v => (v, s)
       | None =>
           if Py.contains_char Py.colon addr then
             let ip := ip_part_of addr in
             if bool_decide (ip ∈ resolution_pending s) then (addr, s)
             else (addr,
                   set_threads (spawned s ++ [(ip, addr)]) (inflight s) (sem s)
                     (set_resolution (resolve_hosts s) (resolution_cache s)
                        ({[ip]} ∪ resolution_pending s) s))
           else (addr, s)
       end.

(** [get_process_path(pid)] on the contents of [/proc/<pid>/cmdline]. *)
Definition get_process_path (p : string) (f : option string) : string :=
  match f with
  | None => "N/A"
  | Some raw =>
      let cmdline := PyStrip.strip raw in
      match cmdline with
      | EmptyString => ("[" ++ p ++ "]")%string
      | _ => PyStrip.replace_nul cmdline
      end
  end.

(** A cell of [get_row_data]: text, or a rate that [format_bytes] turns
    into text (float formatting, kept symbolic). *)
Inductive cell := CText (t : string) | CRate (r : Z).

Definition trunc30 (t : string) : string :=
  if (30 <? String.length t)%nat then Py.take 30 t else t.

(** [get_row_data(conn)]. *)
Definition get_row_data (e : env) (s : state) (r : rconn) : list cell * state :=
  let c := rc_conn r in
  let prog_pid := if String.eqb (pid c) NA then program c
                  else (program c ++ "(" ++ pid c ++ ")")%string in
  let '(local_resolved, s1) := resolve_address s (local c) in
  let '(remote_resolved, s2) := resolve_address s1 (remote c) in
  let process_path := if String.eqb (pid c) NA then "N/A"
                      else get_process_path (pid c) (env_cmdline e (pid c)) in
  ([CText (trunc30 prog_pid); CText (protocol c); CText (trunc30 local_resolved);
    CText (trunc30 remote_resolved); CText (cstate c); CRate (tx_rate r);
    CRate (rx_rate r); CText process_path], s2).

(** Sort keys: [get_sort_key] returns the raw rate (an [int]) for the TX
    and RX columns and a lower-cased [str] for the others; one call of
    [sorted] only compares keys of one kind (the column is fixed). *)
Inductive key := KNum (z : Z) | KStr (t : string).

(** Python's [<] on two keys. *)
Definition key_ltb (a b : key) : bool :=
  match a, b with
  | KNum x, KNum y => x <? y
  | KStr x, KStr y => String.ltb x y
  | _, _ => false
  end.

(** [get_sort_key(conn)]; for the text columns it calls [get_row_data],
    hence [resolve_address]. *)
Definition get_sort_key (e : env) (s : state) (r : rconn) : key * state :=
  let col := sort_column s in
  if (col =? 5)%nat then (KNum (tx_rate r), s)
  else if (col =? 6)%nat then (KNum (rx_rate r), s)
  else
    let '(row, s') := get_row_data e s r in
    if (length row <=? col)%nat then (KStr "", s')
    else match nth_error row col with
         | Some (CText t) => (KStr (Py.lower t), s')
         | _ => (KStr "", s')  (* a rate cell: columns 5 and 6, taken above *)
         end.

(** [sorted] first computes every key once, in list order. *)
Fixpoint decorate (e : env) (s : state) (rs : list rconn)
    : list (key * rconn) * state :=
  match rs with
  | [] => ([], s)
  | r :: rs' =>
      let '(k, s1) := get_sort_key e s r in
      let '(ds, s2) := decorate e s1 rs' in
      ((k, r) :: ds, s2)
  end.

(** A stable sort on the keys with [<] only: an element goes before the
    first later element that is not smaller than it.  (For a total order,
    as on [int] or on [str], the stable sorted permutation is unique, so
    this is the result of Python's timsort.) *)
Fixpoint insert_stable (x : key * rconn) (l : list (key * rconn))
    : list (key * rconn) :=
  match l with
  | [] => [x]
  | y :: l' => if key_ltb (fst y) (fst x) then y :: insert_stable x l'
               else x :: y :: l'
  end.

Fixpoint isort (l : list (key * rconn)) : list (key * rconn) :=
  match l with
  | [] => []
  | x :: l' => insert_stable x (isort l')
  end.

(** [sorted(.., reverse=True)] reverses, sorts stably and reverses again
    ([list.sort] in CPython), which keeps equal keys in input order. *)
Definition py_sorted (reverse : bool) (l : list (key * rconn))
    : list (key * rconn) :=
  if reverse then rev (isort (rev l)) else isort l.

(** [sort_connections(connections)]. *)
Definition sort_connections (e : env) (s : state) (rs : list rconn)
    : list rconn * state :=
  match rs with
  | [] => (rs, s)
  | _ =>
      let '(ds, s1) := decorate e s rs in
      (map snd (py_sorted (negb (sort_ascending s)) ds), s1)
  end.

(** The first loop of [update_connections]: builds [current_io] from
    scratch and attaches [rx_rate]/[tx_rate] to every connection. *)
Fixpoint rate_loop (io : string -> io_file) (prev cur : gmap string (Z * Z))
    (conns : list conn) : gmap string (Z * Z) * list rconn :=
  match conns with
  | [] => (cur, [])
  | c :: cs =>
      if String.eqb (pid c) NA then
        let '(cur', rs) := rate_loop io prev cur cs in
        (cur', mkRConn c 0 0 :: rs)
      else
        let '(cur_r, cur_w) := get_process_io (io (pid c)) in
        let cur1 := <[pid c := (cur_r, cur_w)]> cur in
        let rc := match prev !! pid c with
                  | Some (pr, pw) =>
                      mkRConn c (Z.max 0 (cur_r - pr)) (Z.max 0 (cur_w - pw))
                  | None => mkRConn c 0 0
                  end in
        let '(cur', rs) := rate_loop io prev cur1 cs in
        (cur', rc :: rs)
  end.

(** [filtered_connections = [conn for conn in connections if
    self.resolve_address(conn['remote']) != "LOCALHOST"]]. *)
Fixpoint filter_loop (s : state) (rs : list rconn) : list rconn * state :=
  match rs with
  | [] => ([], s)
  | r :: rs' =>
      let '(v, s1) := resolve_address s (remote (rc_conn r)) in
      let '(kept, s2) := filter_loop s1 rs' in
      (if String.eqb v "LOCALHOST" then kept else r :: kept, s2)
  end.

Definition is_active (r : rconn) : bool := (0 <? rx_rate r) || (0 <? tx_rate r).

(** The rendering loop: [get_row_data] per row and [active_connections]. *)
Fixpoint render_loop (e : env) (s : state) (rs : list rconn) : nat * state :=
  match rs with
  | [] => (0%nat, s)
  | r :: rs' =>
      let '(_, s1) := get_row_data e s r in
      let '(act, s2) := render_loop e s1 rs' in
      (if is_active r then S act else act, s2)
  end.

(** [update_status(total, active)]: the summary line, or the idle text. *)
Definition update_status (total active : nat) : option (nat * nat) :=
  if (0 <? total)%nat then Some (total, active) else None.

(** [update_connections()]: one sampling cycle. *)
Definition update_connections (e : env) (s : state) : state :=
  let conns := env_conns e in
  let '(current_io, rcs) := rate_loop (env_io e) (prev_io s) ∅ conns in
  let s1 := set_prev_io current_io s in
  let '(filtered, s2) := filter_loop s1 rcs in
  let '(sorted, s3) := sort_connections e s2 filtered in
  let '(active, s4) := render_loop e s3 sorted in
  let s5 := set_view sorted (update_status (length conns) active) s4 in
  set_queue (main_queue s5 ++ [TUpdate]) s5.

(** [update_resolution_cache(addr, resolved)] (an idle callback). *)
Definition update_resolution_cache (e : env) (s : state) (addr resolved : string)
    : state :=
  let c := <[addr := resolved]> (resolution_cache s) in
  let p := if bool_decide (addr ∈ resolution_pending s)
           then resolution_pending s ∖ {[Py.before_first_colon addr]}
           else resolution_pending s in
  update_connections e (set_resolution (resolve_hosts s) c p s).

(** [on_resolve_toggled(button)] with [button.get_active() = active]. *)
Definition on_resolve_toggled (s : state) (active : bool) : state :=
  let s1 := if active
            then set_resolution true (resolution_cache s) (resolution_pending s) s
            else set_resolution false ∅ ∅ s in
  set_queue (main_queue s1 ++ [TDelayed]) s1.

(** [delayed_refresh()]. *)
Definition delayed_refresh (e : env) (s : state) : state :=
  update_connections e (set_prev_io ∅ s).

(** [on_header_clicked(button, column_index)]. *)
Definition on_header_clicked (e : env) (s : state) (col : nat) : state :=
  let s1 := if (sort_column s =? col)%nat
            then set_sort (sort_column s) (negb (sort_ascending s)) s
            else set_sort col true s in
  update_connections e s1.

(** [NetworkMonitorApp.on_refresh]. *)
Definition on_refresh (e : env) (s : state) : state :=
  update_connections e (set_prev_io ∅ s).

(** Dispatch of a main-loop source. *)
Definition run_task (e : env) (s : state) (t : task) : state :=
  match t with
  | TUpdate => update_connections e s
  | TDelayed => delayed_refresh e s
  | TCache a r => update_resolution_cache e s a r
  end.

(** The value [async_resolve_host] computes; [outcome] is the result of
    [socket.gethostbyaddr(ip_part)[0]], [None] when it raises. *)
Definition lookup_result (full_addr : string) (outcome : option string) : string :=
  match outcome with
  | Some hostname =>
      match Py.rsplit_colon full_addr with
      | Some (_, port) => (hostname ++ ":" ++ port)%string
      | None => full_addr
      end
  | None => full_addr
  end.

(** [__init__] up to [start_monitoring()]. *)
Definition init0 : state :=
  mkState ∅ 0 true true ∅ ∅ [] [] 5 [] [] None.
Definition init_state (e : env) : state := update_connections e init0.

(** The interleavings of the main thread and the resolver threads. *)
Inductive step : state -> state -> Prop :=
| step_task e s pre t post :
    main_queue s = pre ++ t :: post ->
    step s (run_task e (set_queue (pre ++ post) s) t)
| step_header e s col : step s (on_header_clicked e s col)
| step_toggle s b : step s (on_resolve_toggled s b)
| step_refresh e s : step s (on_refresh e s)
| step_acquire s pre th post :
    spawned s = pre ++ th :: post -> (0 < sem s)%nat ->
    step s (set_threads (pre ++ post) (th :: inflight s) (pred (sem s)) s)
| step_finish s pre th post outcome :
    inflight s = pre ++ th :: post ->
    step s (set_queue
              (main_queue s ++ [TCache (snd th) (lookup_result (snd th) outcome)])
              (set_threads (spawned s) (pre ++ post) (S (sem s)) s)).

Inductive reachable : state -> Prop :=
| reach_init e : reachable (init_state e)
| reach_step s s' : reachable s -> step s s' -> reachable s'.

End Gtk.

(* ------------------------------------------------------------------ *)
(** ** [get_connections] (the same code in both programs)               *)
(* ------------------------------------------------------------------ *)

Module Conns.

Definition quote : ascii := "034".

(** [needle in s]. *)
Fixpoint contains_str (needle s : string) : bool :=
  match s with
  | EmptyString => String.prefix needle s
  | String _ r => String.prefix needle s || contains_str needle r
  end.

(** [s.endswith(suffix)]. *)
Definition endswith (s suffix : string) : bool :=
  let n := String.length s in
  let m := String.length suffix in
  (m <=? n)%nat && String.eqb (substring (n - m) m s) suffix.

(** [s[n:]]. *)
Definition drop (n : nat) (s : string) : string :=
  substring n (String.length s - n) s.

Definition is_digit (c : ascii) : bool :=
  match Py.digit_val c with Some _ => true | None => false end.

(** The digits at the start of [s] ([\d+] is greedy). *)
Fixpoint digit_run (s : string) : string :=
  match s with
  | EmptyString => EmptyString
  | String d r => if is_digit d then String d (digit_run r) else EmptyString
  end.

(** [re.search(r'pid=(\d+)', part).group(1)]: the leftmost match. *)
Fixpoint search_pid (s : string) : option string :=
  match s with
  | EmptyString => None
  | String _ r =>
      if String.prefix "pid=" s then
        match digit_run (drop 4 s) with
        | EmptyString => search_pid r
        | ds => Some ds
        end
      else search_pid r
  end.

(** The characters before the first double quote of [s]; [None]
    without one. *)
Fixpoint upto_quote (s : string) : option string :=
  match s with
  | EmptyString => None
  | String d r =>
      if Ascii.eqb d quote then Some EmptyString
      else option_map (String d) (upto_quote r)
  end.

(** The program-name search of [get_connections] (a double quote, one or
    more characters other than a double quote, a double quote), group 1
    of its leftmost match. *)
Fixpoint search_quoted (s : string) : option string :=
  match s with
  | EmptyString => None
  | String d r =>
      if Ascii.eqb d quote then
        match upto_quote r with
        | Some (String c w) => Some (String c w)
        | _ => search_quoted r
        end
      else search_quoted r
  end.

(** The [for part in parts] loop: the first part starting with
    ['users:(('] gives the program and the pid ([break]). *)
Fixpoint find_users (parts : list string) : option string :=
  match parts with
  | [] => None
  | p :: ps => if Py.startswith p "users:((" then Some p else find_users ps
  end.

Definition owner_of (parts : list string) : string * string :=
  match find_users parts with
  | None => (NA, NA)
  | Some part =>
      (match search_quoted part with Some prog => prog | None => NA end,
       match search_pid part with Some p => p | None => NA end)
  end.

(** The [for io_line in io_data.split('\n')] loop of the SSH guess:
    [Some true] at the first [read_bytes:] line with a positive value
    ([break]), [Some false] at the end, [None] when [split()[1]] or [int]
    raises. *)
Fixpoint read_bytes_loop (lines : list string) : option bool :=
  match lines with
  | [] => Some false
  | l :: ls =>
      if Py.startswith l "read_bytes:" then
        match nth_error (Py.split_ws l) 1 with
        | None => None
        | Some tok =>
            match Py.int_of_string tok with
            | None => None
            | Some v => if 0 <? v then Some true else read_bytes_loop ls
            end
        end
      else read_bytes_loop ls
  end.

(** The inner [try]: does [/proc/<possible_pid>/io] show read activity;
    an exception ends in [continue], as a [False] does. *)
Definition has_io (io : string -> io_file) (p : string) : bool :=
  match io p with
  | None => false
  | Some data =>
      match read_bytes_loop (Py.split_on Py.newline data) with
      | Some b => b
      | None => false
      end
  end.

(** The [for line in result2.stdout.split('\n')] loop: the second word
    of the first non-root line mentioning [ssh] whose process read bytes. *)
Fixpoint ssh_guess (io : string -> io_file) (lines : list string) : option string :=
  match lines with
  | [] => None
  | l :: ls =>
      if contains_str "ssh" l && negb (Py.startswith l "root") then
        match Py.split_ws l with
        | _ :: p :: _ => if has_io io p then Some p else ssh_guess io ls
        | _ => ssh_guess io ls
        end
      else ssh_guess io ls
  end.

(** [ps] is the output of [ps aux] ([None] when [subprocess.run] raises,
    which the [except: pass] ignores); like the [/proc] files it is one
    snapshot of the cycle. *)
Definition guess_owner (io : string -> io_file) (ps : option string) : option string :=
  match ps with
  | None => None
  | Some out => ssh_guess io (Py.split_on Py.newline out)
  end.

(** The body of [for line in lines]: [None] is a [continue]. *)
Definition parse_line (io : string -> io_file) (ps : option string) (line : string)
    : option conn :=
  if String.eqb (PyStrip.strip line) "" then None
  else
    let parts := Py.split_ws line in
    if (length parts <? 6)%nat then None
    else
      match parts with
      | proto :: st :: _ :: _ :: local_addr :: remote_addr :: _ =>
          let '(prog, p) := owner_of parts in
          let '(prog', p') :=
            if String.eqb p NA && endswith remote_addr ":22" then
              match guess_owner io ps with
              | Some q => ("ssh"%string, q)
              | None => (prog, p)
              end
            else (prog, p) in
          Some (mkConn proto st local_addr remote_addr prog' p')
      | _ => None
      end.

Fixpoint conn_loop (io : string -> io_file) (ps : option string)
    (lines : list string) : list conn :=
  match lines with
  | [] => []
  | l :: ls =>
      match parse_line io ps l with
      | Some c => c :: conn_loop io ps ls
      | None => conn_loop io ps ls
      end
  end.

(** [get_connections()]: [ss] is the output of [ss -tulnape], [None] when
    [subprocess.run] raises (the error is printed and [[]] returned); the
    first line (the column header) is dropped. *)
Definition get_connections (io : string -> io_file) (ss ps : option string)
    : list conn :=
  match ss with
  | None => []
  | Some out => conn_loop io ps (tl (Py.split_on Py.newline (PyStrip.strip out)))
  end.

End Conns.

(* ------------------------------------------------------------------ *)
(** ** [format_bytes] (both programs)                                   *)
(* ------------------------------------------------------------------ *)

Module Fmt.

(** [a / b] rounded to the nearest integer, ties to even ([0 <= a], [0 < b]). *)
Definition round_div (a b : Z) : Z :=
  let q := a / b in
  let r := a mod b in
  if 2 * r <? b then q
  else if b <? 2 * r then q + 1
  else if Z.even q then q else q + 1.

(** [float(n)] of a non-negative int: 53 significant bits, ties to even. *)
Definition float_mag (n : Z) : Z :=
  if n <? 2 ^ 53 then n
  else let k := Z.log2 n - 52 in round_div n (2 ^ k) * 2 ^ k.

(** [float(n)] of an int (an integral double, kept as [Z]); [None] is the
    [OverflowError] raised when it rounds to [2^1024] or more. *)
Definition float_of_int (n : Z) : option Z :=
  let m := float_mag (Z.abs n) in
  if 2 ^ 1024 <=? m then None else Some (Z.sgn n * m).

(** [str(n)] of an int. *)
Definition str_of_z (n : Z) : string := NilZero.string_of_int (Z.to_int n).

(** [f"{x:.1f}"] of the double [x = num / den] ([den] a power of two, so
    [x] is exactly this fraction): rounded to tenths, ties to even. *)
Definition tenths (a den : Z) : Z := round_div (10 * Z.abs a) den.
Definition fmt1 (a den : Z) : string :=
  let t := tenths a den in
  let sign := if a <? 0 then "-"%string else "" in
  (sign ++ str_of_z (t / 10) ++ "." ++ str_of_z (t mod 10))%string.

(** The value of [bytes_val]: the int argument, or after [/= 1024.0] the
    double [f / den] (dividing a double of this size by 1024 is exact). *)
Inductive num := IntV (v : Z) | FloatV (f den : Z).

Definition units : list string := ["B"; "KB"; "MB"; "GB"].

(** [f"{bytes_val:.1f}{unit}"] followed by [sfx]. *)
Definition show (sfx u : string) (x : num) : option string :=
  match x with
  | IntV v => option_map (fun f => (fmt1 f 1 ++ u ++ sfx)%string) (float_of_int v)
  | FloatV f den => Some (fmt1 f den ++ u ++ sfx)%string
  end.

(** The [for unit in [...]] loop, then the [TB] line. *)
Fixpoint fb_loop (sfx : string) (us : list string) (x : num) : option string :=
  match us with
  | [] => show sfx "TB" x
  | u :: us' =>
      let small := match x with
                   | IntV v => v <? 1024
                   | FloatV f den => f <? 1024 * den
                   end in
      if small then show sfx u x
      else match x with
           | IntV v => match float_of_int v with
                       | Some f => fb_loop sfx us' (FloatV f 1024)
                       | None => None
                       end
           | FloatV f den => fb_loop sfx us' (FloatV f (1024 * den))
           end
  end.

End Fmt.

(* ------------------------------------------------------------------ *)
(** ** Terminal rows ([print_table_row])                                *)
(* ------------------------------------------------------------------ *)

Module TerminalView.

(** [format_bytes(bytes_val)] of [network-monitor.py]; [None] is the
    [OverflowError] of [float()]. *)
Definition format_bytes (v : Z) : option string := Fmt.fb_loop "" Fmt.units (Fmt.IntV v).

Definition esc : string := String "027" EmptyString.

(** [row_color] of [print_table_row] ([""] for none). *)
Definition row_color (rx tx : Z) : string :=
  if (0 <? rx) && (0 <? tx) then (esc ++ "[92m")%string
  else if 0 <? rx then (esc ++ "[94m")%string
  else if 0 <? tx then (esc ++ "[91m")%string
  else "".

(** [x = x[:keep] if len(x) > limit else x]. *)
Definition cut (limit keep : nat) (t : string) : string :=
  if (limit <? String.length t)%nat then Py.take keep t else t.

(** Reading aid: [shown] is [full] when it has at most [width]
    characters, and otherwise the first [keep] characters of it. *)
Definition shown_as (width keep : nat) (full shown : string) : Prop :=
  (shown = full /\ (String.length full <= width)%nat) \/
  ((width < String.length full)%nat /\ String.length shown = keep /\
   String.prefix shown full = true).

(** The Program(PID), Local and Remote texts of a printed row. *)
Definition row_fields (c : conn) : string * string * string :=
  let prog_pid := if String.eqb (pid c) NA then program c
                  else (program c ++ "(" ++ pid c ++ ")")%string in
  (cut 20 19 prog_pid, cut 20 19 (Terminal.resolve_address (local c)),
   cut 25 24 (Terminal.resolve_address (remote c))).

End TerminalView.

(* ------------------------------------------------------------------ *)
(** ** GTK window: texts and header labels                              *)
(* ------------------------------------------------------------------ *)

Module GtkView.

(** [format_bytes(bytes_val)] of [network-monitor-gtk.py]. *)
Definition format_bytes (v : Z) : option string := Fmt.fb_loop "/s" Fmt.units (Fmt.IntV v).

Definition headers : list string :=
  ["Process(ID)"; "Protocol"; "Source"; "Destination"; "Status"; "TX"; "RX"; "Path"].

Definition arrow (asc : bool) : string := if asc then " ▲" else " ▼".

(** The loop over [enumerate(zip(self.header_buttons, headers))]: the
    labels of the buttons; a button past the eighth keeps its label. *)
Fixpoint relabel (i : nat) (labels hs : list string) (col : nat) (asc : bool)
    : list string :=
  match labels, hs with
  | _ :: ls, h :: hs' =>
      (if (i =? col)%nat then (h ++ arrow asc)%string else h)
        :: relabel (S i) ls hs' col asc
  | _, [] => labels
  | [], _ => []
  end.

Definition update_header_labels (labels : list string) (col : nat) (asc : bool)
    : list string :=
  relabel 0 labels headers col asc.

(** [create_tree_view] appends one button per header, labelled with it. *)
Definition create_tree_view (labels : list string) : list string := labels ++ headers.

(** The header labels [__init__] leaves: [setup_ui] calls
    [update_header_labels] while [header_buttons] is still [[]], and only
    then [create_tree_view]. *)
Definition setup_labels (s : Gtk.state) : list string :=
  create_tree_view (update_header_labels [] (Gtk.sort_column s) (Gtk.sort_ascending s)).

(** [on_header_clicked]: the sort attributes are set, the labels updated
    from them, then [update_connections] runs (which keeps them). *)
Definition header_click (e : env) (s : Gtk.state) (labels : list string) (col : nat)
    : list string * Gtk.state :=
  let s' := Gtk.on_header_clicked e s col in
  (update_header_labels labels (Gtk.sort_column s') (Gtk.sort_ascending s'), s').

(** Reading aid: the number of [update_connections] timers queued. *)
Definition count_updates (q : list Gtk.task) : nat :=
  length (List.filter (fun t => match t with Gtk.TUpdate => true | _ => false end) q).

End GtkView.

(* ================================================================== *)
(** * Proofs                                                            *)
(* ================================================================== *)


(* ------------------------------------------------------------------ *)
(** ** A scheduling of the resolver threads                             *)
(* ------------------------------------------------------------------ *)

Module Sched.

(** Up to [n] times, the first started thread still waiting at
    [with self.resolution_semaphore] enters it, while the counter is
    positive. *)
Fixpoint acquire_n (n : nat) (s : Gtk.state) : Gtk.state :=
  match n with
  | O => s
  | S n' =>
      match Gtk.spawned s with
      | th :: rest =>
          if (0 <? Gtk.sem s)%nat
          then acquire_n n' (Gtk.set_threads rest (th :: Gtk.inflight s) (pred (Gtk.sem s)) s)
          else s
      | [] => s
      end
  end.

End Sched.

Module GtkFacts.
Import Gtk.

(** ** Framing: what the main-thread helpers leave alone *)

(** [resolve_address], [get_row_data] and the loops built on them only
    touch [resolution_pending] and [spawned]. *)
Definition frame (s s' : state) : Prop :=
  prev_io s' = prev_io s /\ sort_column s' = sort_column s /\
  sort_ascending s' = sort_ascending s /\ resolve_hosts s' = resolve_hosts s /\
  resolution_cache s' = resolution_cache s /\ inflight s' = inflight s /\
  sem s' = sem s /\ main_queue s' = main_queue s /\
  resolution_pending s ⊆ resolution_pending s'.

Definition not_localhost (s : state) (r : rconn) : bool :=
  negb (String.eqb (fst (resolve_address s (remote (rc_conn r)))) "LOCALHOST").

(** Every attached rate is [max(0, current - previous)] when the pid has a
    previous sample, 0 otherwise; in particular it is never negative. *)
Definition rate_ok (io : string -> io_file) (prev : gmap string (Z * Z))
    (r : rconn) : Prop :=
  let p := pid (rc_conn r) in
  match (if String.eqb p NA then None else prev !! p) with
  | Some (pr, pw) =>
      rx_rate r = Z.max 0 (fst (get_process_io (io p)) - pr) /\
      tx_rate r = Z.max 0 (snd (get_process_io (io p)) - pw)
  | None => rx_rate r = 0 /\ tx_rate r = 0
  end.

Definition cycle_rates (e : env) (s : state) : gmap string (Z * Z) * list rconn :=
  rate_loop (env_io e) (prev_io s) ∅ (env_conns e).

Lemma frame_refl s : frame s s.
Proof. repeat split. set_solver. Qed.

Lemma frame_trans s1 s2 s3 : frame s1 s2 -> frame s2 s3 -> frame s1 s3.
Proof.
  intros (?&?&?&?&?&?&?&?&?) (?&?&?&?&?&?&?&?&?).
  repeat split; try congruence. set_solver.
Qed.

Lemma resolve_address_frame s a : frame s (snd (resolve_address s a)).
Proof.
  unfold resolve_address.
  repeat (case_match; try apply frame_refl).
  all: repeat split; simpl; set_solver.
Qed.

(** The value [resolve_address] returns only reads [resolve_hosts] and the
    cache. *)
Lemma resolve_address_value s s' a :
  resolve_hosts s' = resolve_hosts s ->
  resolution_cache s' = resolution_cache s ->
  fst (resolve_address s' a) = fst (resolve_address s a).
Proof.
  intros Hh Hc. unfold resolve_address. rewrite Hh, Hc.
  repeat case_match; reflexivity.
Qed.

Lemma get_row_data_frame e s r : frame s (snd (get_row_data e s r)).
Proof.
  unfold get_row_data.
  pose proof (resolve_address_frame s (local (rc_conn r))) as F1.
  destruct (resolve_address s (local (rc_conn r))) as [v1 s1] eqn:E1.
  pose proof (resolve_address_frame s1 (remote (rc_conn r))) as F2.
  destruct (resolve_address s1 (remote (rc_conn r))) as [v2 s2] eqn:E2.
  simpl in *. eapply frame_trans; eauto.
Qed.

Lemma get_sort_key_frame e s r : frame s (snd (get_sort_key e s r)).
Proof.
  unfold get_sort_key.
  destruct (sort_column s =? 5)%nat; [apply frame_refl|].
  destruct (sort_column s =? 6)%nat; [apply frame_refl|].
  pose proof (get_row_data_frame e s r) as F.
  destruct (get_row_data e s r) as [row s'] eqn:E. simpl in F.
  repeat case_match; exact F.
Qed.

Lemma decorate_frame e s rs : frame s (snd (decorate e s rs)).
Proof.
  revert s. induction rs as [|r rs IH]; intros s; simpl; [apply frame_refl|].
  pose proof (get_sort_key_frame e s r) as F.
  destruct (get_sort_key e s r) as [k s1] eqn:E1.
  specialize (IH s1).
  destruct (decorate e s1 rs) as [ds s2] eqn:E2.
  simpl in *. eapply frame_trans; eauto.
Qed.

Lemma decorate_snd e s rs : map snd (fst (decorate e s rs)) = rs.
Proof.
  revert s. induction rs as [|r rs IH]; intros s; simpl; [reflexivity|].
  destruct (get_sort_key e s r) as [k s1] eqn:E1.
  specialize (IH s1).
  destruct (decorate e s1 rs) as [ds s2] eqn:E2.
  simpl in *. now rewrite IH.
Qed.

Lemma filter_loop_frame s rs : frame s (snd (filter_loop s rs)).
Proof.
  revert s. induction rs as [|r rs IH]; intros s; simpl; [apply frame_refl|].
  pose proof (resolve_address_frame s (remote (rc_conn r))) as F.
  destruct (resolve_address s (remote (rc_conn r))) as [v s1] eqn:E1.
  specialize (IH s1).
  destruct (filter_loop s1 rs) as [kept s2] eqn:E2.
  simpl in *. eapply frame_trans; eauto.
Qed.

Lemma render_loop_frame e s rs : frame s (snd (render_loop e s rs)).
Proof.
  revert s. induction rs as [|r rs IH]; intros s; simpl; [apply frame_refl|].
  pose proof (get_row_data_frame e s r) as F.
  destruct (get_row_data e s r) as [row s1] eqn:E1.
  specialize (IH s1).
  destruct (render_loop e s1 rs) as [act s2] eqn:E2.
  simpl in *. eapply frame_trans; eauto.
Qed.

Lemma sort_connections_frame e s rs : frame s (snd (sort_connections e s rs)).
Proof.
  unfold sort_connections. destruct rs; [apply frame_refl|].
  pose proof (decorate_frame e s (r :: rs)) as F.
  destruct (decorate e s (r :: rs)) as [ds s1] eqn:E1.
  exact F.
Qed.

(** ** The filter, the sort and the rendering loop *)


Lemma filter_loop_filter s rs :
  fst (filter_loop s rs) = List.filter (not_localhost s) rs.
Proof.
  revert s. induction rs as [|r rs IH]; intros s; simpl; [reflexivity|].
  pose proof (resolve_address_frame s (remote (rc_conn r))) as F.
  unfold not_localhost at 1.
  destruct (resolve_address s (remote (rc_conn r))) as [v s1] eqn:E1.
  specialize (IH s1).
  destruct (filter_loop s1 rs) as [kept s2] eqn:E2.
  simpl in *. rewrite IH.
  assert (Hf : List.filter (not_localhost s1) rs = List.filter (not_localhost s) rs).
  { apply filter_ext. intros x. unfold not_localhost.
    destruct F as (_&_&_&Hh&Hc&_). now rewrite (resolve_address_value s s1). }
  rewrite Hf. now destruct (String.eqb v "LOCALHOST").
Qed.

Lemma insert_stable_perm x l : Permutation (insert_stable x l) (x :: l).
Proof.
  induction l as [|y l IH]; simpl; [reflexivity|].
  destruct (key_ltb (fst y) (fst x)); [|reflexivity].
  rewrite IH. apply perm_swap.
Qed.

Lemma isort_perm l : Permutation (isort l) l.
Proof.
  induction l as [|x l IH]; simpl; [reflexivity|].
  rewrite insert_stable_perm. now apply perm_skip.
Qed.

Lemma py_sorted_perm b l : Permutation (py_sorted b l) l.
Proof.
  unfold py_sorted. destruct b; [|apply isort_perm].
  rewrite <- Permutation_rev, isort_perm. symmetry. apply Permutation_rev.
Qed.

Lemma sort_connections_perm e s rs :
  Permutation (fst (sort_connections e s rs)) rs.
Proof.
  unfold sort_connections. destruct rs as [|r rs]; [reflexivity|].
  pose proof (decorate_snd e s (r :: rs)) as Hd.
  destruct (decorate e s (r :: rs)) as [ds s1] eqn:E1. simpl in *.
  rewrite <- Hd. apply Permutation_map, py_sorted_perm.
Qed.

Lemma render_loop_active e s rs :
  fst (render_loop e s rs) = length (List.filter is_active rs).
Proof.
  revert s. induction rs as [|r rs IH]; intros s; simpl; [reflexivity|].
  destruct (get_row_data e s r) as [row s1] eqn:E1.
  specialize (IH s1).
  destruct (render_loop e s1 rs) as [act s2] eqn:E2.
  simpl in *. rewrite IH. now destruct (is_active r).
Qed.

(** ** The rate loop *)

Lemma rate_loop_conns io prev cur conns :
  map rc_conn (snd (rate_loop io prev cur conns)) = conns.
Proof.
  revert cur. induction conns as [|c cs IH]; intros cur; simpl; [reflexivity|].
  destruct (String.eqb (pid c) NA).
  - specialize (IH cur). destruct (rate_loop io prev cur cs) eqn:E.
    simpl in *. now rewrite IH.
  - destruct (get_process_io (io (pid c))) as [r w].
    specialize (IH (<[pid c:=(r, w)]> cur)).
    destruct (rate_loop io prev (<[pid c:=(r, w)]> cur) cs) eqn:E.
    simpl in *. rewrite IH. now destruct (prev !! pid c) as [[]|].
Qed.


Lemma rate_ok_nonneg io prev r : rate_ok io prev r -> 0 <= rx_rate r /\ 0 <= tx_rate r.
Proof.
  unfold rate_ok. destruct (String.eqb (pid (rc_conn r)) NA);
    [|destruct (prev !! pid (rc_conn r)) as [[pr pw]|]]; intros [-> ->]; lia.
Qed.

Lemma rate_loop_rates io prev cur conns :
  Forall (rate_ok io prev) (snd (rate_loop io prev cur conns)).
Proof.
  revert cur. induction conns as [|c cs IH]; intros cur; simpl; [constructor|].
  unfold rate_ok at 1. simpl.
  destruct (String.eqb (pid c) NA) eqn:Hna.
  - specialize (IH cur). destruct (rate_loop io prev cur cs) eqn:E.
    simpl in *. constructor; [simpl; rewrite Hna; lia|exact IH].
  - destruct (get_process_io (io (pid c))) as [r w] eqn:Hio.
    specialize (IH (<[pid c:=(r, w)]> cur)).
    destruct (rate_loop io prev (<[pid c:=(r, w)]> cur) cs) eqn:E.
    simpl in *. constructor; [|exact IH].
    destruct (prev !! pid c) as [[pr pw]|] eqn:Hp; simpl; rewrite Hna, Hp;
      [rewrite Hio; simpl; split; reflexivity | lia].
Qed.

Lemma rate_loop_lookup io prev cur conns p :
  (forall c, In c conns -> pid c = NA \/ pid c <> p) ->
  fst (rate_loop io prev cur conns) !! p = cur !! p.
Proof.
  revert cur. induction conns as [|c cs IH]; intros cur Hc; simpl; [reflexivity|].
  assert (Hcs : forall c', In c' cs -> pid c' = NA \/ pid c' <> p)
    by (intros; apply Hc; now right).
  destruct (String.eqb (pid c) NA) eqn:Hna.
  - specialize (IH cur Hcs). destruct (rate_loop io prev cur cs) eqn:E.
    simpl in *. exact IH.
  - destruct (get_process_io (io (pid c))) as [r w].
    specialize (IH (<[pid c:=(r, w)]> cur) Hcs).
    destruct (rate_loop io prev (<[pid c:=(r, w)]> cur) cs) eqn:E.
    simpl in *. rewrite IH.
    destruct (Hc c (or_introl eq_refl)) as [Hn|Hn].
    + rewrite Hn in Hna. discriminate.
    + now rewrite lookup_insert_ne.
Qed.

(** ** One cycle of [update_connections] *)


Lemma update_connections_spec e s :
  let s' := update_connections e s in
  (prev_io s' = fst (cycle_rates e s)) /\
  Permutation (shown s')
    (List.filter (not_localhost s) (snd (cycle_rates e s))) /\
  (status s' = update_status (length (env_conns e))
                 (length (List.filter is_active (shown s')))) /\
  (main_queue s' = main_queue s ++ [TUpdate]) /\
  (sort_column s' = sort_column s) /\ (sort_ascending s' = sort_ascending s) /\
  (resolve_hosts s' = resolve_hosts s) /\
  (resolution_cache s' = resolution_cache s) /\
  (inflight s' = inflight s) /\ (sem s' = sem s) /\
  (resolution_pending s ⊆ resolution_pending s').
Proof.
  unfold update_connections, cycle_rates. cbn zeta.
  destruct (rate_loop (env_io e) (prev_io s) ∅ (env_conns e)) as [cur rcs] eqn:ER.
  pose proof (filter_loop_filter (set_prev_io cur s) rcs) as Hfl.
  pose proof (filter_loop_frame (set_prev_io cur s) rcs) as F1.
  destruct (filter_loop (set_prev_io cur s) rcs) as [filtered s2] eqn:EF.
  pose proof (sort_connections_perm e s2 filtered) as Hp.
  pose proof (sort_connections_frame e s2 filtered) as F2.
  destruct (sort_connections e s2 filtered) as [sorted s3] eqn:ES.
  pose proof (render_loop_active e s3 sorted) as Ha.
  pose proof (render_loop_frame e s3 sorted) as F3.
  destruct (render_loop e s3 sorted) as [act s4] eqn:ERe.
  simpl in *.
  pose proof (frame_trans _ _ _ (frame_trans _ _ _ F1 F2) F3) as F.
  destruct F as (Hprev&Hcol&Hasc&Hh&Hc&Hinf&Hsem&Hq&Hpend). simpl in *.
  assert (Hnl : List.filter (not_localhost (set_prev_io cur s)) rcs =
                List.filter (not_localhost s) rcs).
  { apply filter_ext. intros x. unfold not_localhost.
    now rewrite (resolve_address_value s (set_prev_io cur s)). }
  rewrite Hnl in Hfl. subst filtered act.
  repeat split; try assumption; try congruence.
Qed.


(** Rows shown by a GTK cycle are rows built by its rate loop. *)
Lemma shown_from_rate_loop e s r :
  In r (shown (update_connections e s)) ->
  In r (snd (cycle_rates e s)) /\ not_localhost s r = true.
Proof.
  intros Hin. destruct (update_connections_spec e s) as (_&Hp&_).
  apply (Permutation_in _ Hp) in Hin. apply filter_In in Hin. exact Hin.
Qed.

(** The rate tracker of the GTK window: every shown rate is clamped. *)
Lemma shown_rates e s :
  Forall (rate_ok (env_io e) (prev_io s)) (shown (update_connections e s)).
Proof.
  apply List.Forall_forall. intros r Hr.
  apply shown_from_rate_loop in Hr as [Hr _].
  pose proof (rate_loop_rates (env_io e) (prev_io s) ∅ (env_conns e)) as H.
  rewrite List.Forall_forall in H. exact (H r Hr).
Qed.

(** The rate tracker of the GTK window: [prev_io] is [current_io], which
    only has the pids of this cycle's connections. *)
Lemma prev_io_rebuilt e s p :
  (forall c, In c (env_conns e) -> pid c = NA \/ pid c <> p) ->
  prev_io (update_connections e s) !! p = None.
Proof.
  intros Hc. destruct (update_connections_spec e s) as (Hprev&_).
  rewrite Hprev. unfold cycle_rates. rewrite rate_loop_lookup by exact Hc.
  apply lookup_empty.
Qed.

End GtkFacts.

(* ------------------------------------------------------------------ *)
(** ** The claims                                                       *)
(* ------------------------------------------------------------------ *)

(** Claim C1 (rates are [max(0, current - previous)], never negative).
    The GTK window clamps ([GtkFacts.shown_rates]); the terminal monitor
    subtracts without clamping: with the spec's wrap-around scenario
    (previous [rchar] 2^32 - 10, current 5) it prints the rate
    -4294967281 for the connection. *)
Theorem C1_terminal_negative_rate :
  let c := mkConn "tcp" "ESTAB" "192.168.1.5:40000" "93.184.216.34:443"
             "curl" "100" in
  let e := mkEnv [c] (fun _ => Some "rchar: 5
wchar: 0") (fun _ => None) in
  snd (Terminal.main_cycle e {["100" := (4294967286, 0)]}) =
  Terminal.Table [Terminal.mkPrinted c (-4294967281) 0] 1 0.
Proof. vm_compute. reflexivity. Qed.

(** Claim C2 (the retained map is replaced in full each cycle).  The GTK
    window rebuilds [prev_io] ([GtkFacts.prev_io_rebuilt]); the terminal
    monitor updates [prev_io] in place and never removes a pid: after a
    cycle with pid 100 and a cycle where only pid 200 is connected, pid 100
    is still retained. *)
Theorem C2_terminal_keeps_vanished_pid :
  let c1 := mkConn "tcp" "ESTAB" "192.168.1.5:40000" "93.184.216.34:443"
              "curl" "100" in
  let c2 := mkConn "tcp" "ESTAB" "192.168.1.5:40002" "140.82.112.3:443"
              "git" "200" in
  let io := fun _ : string => Some "rchar: 7
wchar: 9" in
  let p1 := fst (Terminal.main_cycle (mkEnv [c1] io (fun _ => None)) ∅) in
  let p2 := fst (Terminal.main_cycle (mkEnv [c2] io (fun _ => None)) p1) in
  p2 !! "100" = Some (7, 9) /\ p2 !! "200" = Some (7, 9).
Proof. vm_compute. split; reflexivity. Qed.

(** Claim C3 (a completed lookup leaves pending).  [update_resolution_cache]
    only discards when the full endpoint is itself in [resolution_pending],
    which holds IP parts: whenever it is not, no pending IP is removed,
    neither by the handler nor by the cycle it runs.  For the endpoint of
    the spec's scenario 3 the IP stays pending after its lookup completed,
    while the cache is written and a cycle runs. *)
Theorem C3_pending_not_cleared e s addr resolved :
  addr ∉ Gtk.resolution_pending s ->
  let s' := Gtk.update_resolution_cache e s addr resolved in
  Gtk.resolution_cache s' !! addr = Some resolved /\
  Gtk.resolution_pending s ⊆ Gtk.resolution_pending s' /\
  Gtk.main_queue s' = Gtk.main_queue s ++ [Gtk.TUpdate].
Proof.
  intros Hn. unfold Gtk.update_resolution_cache. cbn zeta.
  rewrite bool_decide_eq_false_2 by exact Hn.
  destruct (GtkFacts.update_connections_spec e
     (Gtk.set_resolution (Gtk.resolve_hosts s)
        (<[addr:=resolved]> (Gtk.resolution_cache s)) (Gtk.resolution_pending s) s))
    as (_&_&_&Hq&_&_&_&Hc&_&_&Hp).
  simpl in *. rewrite Hq, Hc. split; [apply lookup_insert_eq|]. split; [exact Hp|reflexivity].
Qed.

(** Claim C4, as stated (enabling resolution changes nothing and triggers
    no refresh), fails: the toggle handler queues [delayed_refresh], which
    clears [prev_io] before its cycle.  Here pid 100 read 1024 bytes since
    the last sample: a plain cycle shows 1024 B/s, the refresh queued by
    enabling resolution shows 0. *)
Theorem C4_enable_queues_refresh :
  let c := mkConn "tcp" "ESTAB" "192.168.1.5:40000" "93.184.216.34:443"
             "curl" "100" in
  let e := mkEnv [c] (fun _ => Some "rchar: 1024
wchar: 0") (fun _ => None) in
  let s := Gtk.set_prev_io {["100" := (0, 0)]} Gtk.init0 in
  let s' := Gtk.on_resolve_toggled s true in
  Gtk.main_queue s = [] /\ Gtk.main_queue s' = [Gtk.TDelayed] /\
  map rx_rate (Gtk.shown (Gtk.update_connections e s)) = [1024] /\
  map rx_rate (Gtk.shown (Gtk.run_task e (Gtk.set_queue [] s') Gtk.TDelayed)) = [0].
Proof. vm_compute. repeat split. Qed.

(** Claim C4, amended: enabling resolution leaves the cache, the pending
    set, the retained counters and the resolver threads as they are; it
    queues one [delayed_refresh] on the main loop, and the cycle that
    refresh runs starts from an empty [prev_io], so all its shown rates
    are 0. *)
Theorem C4_enable_lazy_then_refresh s :
  let s' := Gtk.on_resolve_toggled s true in
  Gtk.resolve_hosts s' = true /\
  Gtk.resolution_cache s' = Gtk.resolution_cache s /\
  Gtk.resolution_pending s' = Gtk.resolution_pending s /\
  Gtk.prev_io s' = Gtk.prev_io s /\
  Gtk.spawned s' = Gtk.spawned s /\ Gtk.inflight s' = Gtk.inflight s /\
  Gtk.main_queue s' = Gtk.main_queue s ++ [Gtk.TDelayed] /\
  (forall e s0, Forall (fun r => rx_rate r = 0 /\ tx_rate r = 0)
                  (Gtk.shown (Gtk.run_task e s0 Gtk.TDelayed))).
Proof.
  simpl. repeat split.
  intros e s0. unfold Gtk.delayed_refresh.
  pose proof (GtkFacts.shown_rates e (Gtk.set_prev_io ∅ s0)) as H.
  simpl in H. eapply List.Forall_impl; [|exact H].
  intros r Hr. unfold GtkFacts.rate_ok in Hr.
  destruct (String.eqb (pid (rc_conn r)) NA); [exact Hr|].
  rewrite lookup_empty in Hr. exact Hr.
Qed.

(** Claim C5, as stated for every endpoint, fails on the special forms:
    with resolution enabled, an empty cache and nothing pending, the
    any-address endpoint ["0.0.0.0:*"] resolves to ["ANY"], not to the raw
    endpoint, and no lookup is started. *)
Theorem C5_special_endpoint_not_raw :
  Gtk.resolve_hosts Gtk.init0 = true /\
  Gtk.resolution_cache Gtk.init0 !! "0.0.0.0:*" = None /\
  (Gtk.ip_part_of "0.0.0.0:*" ∉ Gtk.resolution_pending Gtk.init0) /\
  fst (Gtk.resolve_address Gtk.init0 "0.0.0.0:*") = "ANY" /\
  Gtk.spawned (snd (Gtk.resolve_address Gtk.init0 "0.0.0.0:*")) = [].
Proof.
  split; [reflexivity|]. split; [reflexivity|]. split; [|split; reflexivity].
  simpl. set_solver.
Qed.

(** Claim C5, amended: for an endpoint that has a colon and is none of the
    any-address, loopback and mDNS forms, with resolution enabled, no cache
    entry and its IP part not pending, the first [resolve_address] returns
    the raw endpoint, starts exactly one lookup thread for its IP part and
    adds the IP part to the pending set; an immediately following second
    call returns the raw endpoint and changes nothing (no further thread).
    The pending set is a set ([gset]), so an IP part is in it at most once.
    The any-address, loopback and mDNS endpoints resolve to [ANY],
    [LOCALHOST] and [MDNS] in every state, and the state is left as it is:
    no lookup is started and nothing is added to the pending set. *)
Theorem C5_first_call_schedules_once :
  (forall s addr,
  Gtk.resolve_hosts s = true ->
  Gtk.resolution_cache s !! addr = None ->
  Gtk.ip_part_of addr ∉ Gtk.resolution_pending s ->
  is_any addr = false -> is_loopback addr = false -> is_mdns addr = false ->
  Py.contains_char Py.colon addr = true ->
  let s1 := snd (Gtk.resolve_address s addr) in
  let s2 := snd (Gtk.resolve_address s1 addr) in
  fst (Gtk.resolve_address s addr) = addr /\
  Gtk.spawned s1 = Gtk.spawned s ++ [(Gtk.ip_part_of addr, addr)] /\
  Gtk.resolution_pending s1 = {[Gtk.ip_part_of addr]} ∪ Gtk.resolution_pending s /\
  fst (Gtk.resolve_address s1 addr) = addr /\
  s2 = s1) /\
  (forall s addr,
   (is_any addr = true -> Gtk.resolve_address s addr = ("ANY", s)) /\
   (is_any addr = false -> is_loopback addr = true ->
    Gtk.resolve_address s addr = ("LOCALHOST", s)) /\
   (is_any addr = false -> is_loopback addr = false -> is_mdns addr = true ->
    Gtk.resolve_address s addr = ("MDNS", s))).
Proof.
  split.
  2:{ intros s addr. unfold Gtk.resolve_address.
      split; [intros ->; reflexivity|].
      split; [intros -> ->; reflexivity|intros -> -> ->; reflexivity]. }
  intros s addr Hon Hc Hp Ha Hl Hm Hcol.
  assert (Hs1 : Gtk.resolve_address s addr =
    (addr, Gtk.set_threads (Gtk.spawned s ++ [(Gtk.ip_part_of addr, addr)])
             (Gtk.inflight s) (Gtk.sem s)
             (Gtk.set_resolution (Gtk.resolve_hosts s) (Gtk.resolution_cache s)
                ({[Gtk.ip_part_of addr]} ∪ Gtk.resolution_pending s) s))).
  { unfold Gtk.resolve_address. rewrite Ha, Hl, Hm, Hon, Hc, Hcol. simpl.
    now rewrite bool_decide_eq_false_2 by exact Hp. }
  cbn zeta. rewrite Hs1. simpl.
  assert (Hs2 : forall s1, Gtk.resolve_hosts s1 = true ->
            Gtk.resolution_cache s1 !! addr = None ->
            Gtk.ip_part_of addr ∈ Gtk.resolution_pending s1 ->
            Gtk.resolve_address s1 addr = (addr, s1)).
  { intros s1 H1 H2 H3. unfold Gtk.resolve_address.
    rewrite Ha, Hl, Hm, H1, H2, Hcol. simpl.
    now rewrite bool_decide_eq_true_2 by exact H3. }
  rewrite Hs2; simpl; try assumption; [|set_solver].
  repeat split.
Qed.

Lemma update_connections_threads e s :
  Gtk.sem (Gtk.update_connections e s) = Gtk.sem s /\
  Gtk.inflight (Gtk.update_connections e s) = Gtk.inflight s.
Proof.
  destruct (GtkFacts.update_connections_spec e s) as (_&_&_&_&_&_&_&_&Hi&Hs&_).
  split; assumption.
Qed.

Lemma run_task_threads e s t :
  Gtk.sem (Gtk.run_task e s t) = Gtk.sem s /\
  Gtk.inflight (Gtk.run_task e s t) = Gtk.inflight s.
Proof.
  destruct t; simpl; unfold Gtk.delayed_refresh, Gtk.update_resolution_cache;
    rewrite (proj1 (update_connections_threads _ _)),
            (proj2 (update_connections_threads _ _)); split; reflexivity.
Qed.

(** Claim C6: the [Semaphore(5)] is acquired before [gethostbyaddr] and
    released when the [with] block ends (the lookup's failure is caught
    inside it), so in every reachable interleaving the semaphore counter
    plus the number of threads inside the [with] block is 5, and at most
    5 lookups are in flight. *)
Theorem C6_at_most_five_inflight s :
  Gtk.reachable s ->
  (Gtk.sem s + length (Gtk.inflight s) = 5)%nat /\
  (length (Gtk.inflight s) <= 5)%nat.
Proof.
  intros Hr. cut ((Gtk.sem s + length (Gtk.inflight s) = 5)%nat); [lia|].
  induction Hr as [e|s s' Hr IH Hst].
  - unfold Gtk.init_state.
    rewrite (proj1 (update_connections_threads _ _)),
            (proj2 (update_connections_threads _ _)).
    reflexivity.
  - destruct Hst as [e s pre t post Hq|e s col|s b|e s|s pre th post Hsp Hpos
                    |s pre th post outcome Hinf].
    + rewrite (proj1 (run_task_threads _ _ _)), (proj2 (run_task_threads _ _ _)).
      exact IH.
    + unfold Gtk.on_header_clicked.
      rewrite (proj1 (update_connections_threads _ _)),
              (proj2 (update_connections_threads _ _)).
      destruct (Gtk.sort_column s =? col)%nat; exact IH.
    + unfold Gtk.on_resolve_toggled. destruct b; exact IH.
    + unfold Gtk.on_refresh.
      rewrite (proj1 (update_connections_threads _ _)),
              (proj2 (update_connections_threads _ _)).
      exact IH.
    + simpl. lia.
    + simpl. rewrite Hinf, length_app in IH. rewrite length_app.
      simpl in IH. lia.
Qed.

Module TerminalFacts.
Import Terminal.

(** The rows the terminal loop prints are non-loopback connections of
    the cycle, and [active_connections] counts the active printed rows. *)
Lemma main_loop_rows io prev conns :
  let '(_, rows, act) := main_loop io prev conns in
  Forall (fun p => resolve_address (remote (p_conn p)) <> "LOCALHOST" /\
                   In (p_conn p) conns) rows /\
  act = length (List.filter row_active rows) /\
  (length rows <= length conns)%nat.
Proof.
  revert prev. induction conns as [|c cs IH]; intros prev; simpl.
  - repeat split; constructor.
  - destruct (String.eqb (resolve_address (remote c)) "LOCALHOST") eqn:HL.
    + specialize (IH prev). destruct (main_loop io prev cs) as [[p2 rows] act].
      destruct IH as (Hf&Ha&Hl). repeat split; [|exact Ha|lia].
      eapply List.Forall_impl; [|exact Hf]. simpl. intros p [H1 H2]. tauto.
    + assert (Hstep : forall rx tx prev1,
        let '(prev2, rows, act) := main_loop io prev1 cs in
        Forall (fun p => resolve_address (remote (p_conn p)) <> "LOCALHOST" /\
                         (c = p_conn p \/ In (p_conn p) cs))
          (mkPrinted c rx tx :: rows) /\
        (if row_active (mkPrinted c rx tx) then S act else act) =
          length (List.filter row_active (mkPrinted c rx tx :: rows)) /\
        (S (length rows) <= S (length cs))%nat).
      { intros rx tx prev1. specialize (IH prev1).
        destruct (main_loop io prev1 cs) as [[p2 rows] act].
        destruct IH as (Hf&Ha&Hl). split; [|split].
        - constructor.
          + simpl. split; [|now left]. intros He. rewrite He in HL. discriminate.
          + eapply List.Forall_impl; [|exact Hf]. simpl. intros p [H1 H2]. tauto.
        - simpl. destruct (row_active (mkPrinted c rx tx)); simpl; congruence.
        - lia. }
      destruct (String.eqb (pid c) NA).
      * specialize (Hstep 0 0 prev). destruct (main_loop io prev cs) as [[p2 rows] act].
        exact Hstep.
      * destruct (get_process_io (io (pid c))) as [cr cw].
        destruct (prev !! pid c) as [[pr pw]|].
        -- specialize (Hstep (cr - pr) (cw - pw) (<[pid c:=(cr, cw)]> prev)).
           destruct (main_loop io (<[pid c:=(cr, cw)]> prev) cs) as [[p2 rows] act].
           exact Hstep.
        -- specialize (Hstep 0 0 (<[pid c:=(cr, cw)]> prev)).
           destruct (main_loop io (<[pid c:=(cr, cw)]> prev) cs) as [[p2 rows] act].
           exact Hstep.
Qed.

Lemma main_cycle_screen e prev :
  match snd (main_cycle e prev) with
  | Table rows total act =>
      total = length (env_conns e) /\
      act = length (List.filter row_active rows) /\
      Forall (fun p => resolve_address (remote (p_conn p)) <> "LOCALHOST") rows /\
      (length rows <= total)%nat
  | NoConnections => env_conns e = []
  end.
Proof.
  unfold main_cycle. destruct (env_conns e) as [|c cs] eqn:Hc; [reflexivity|].
  pose proof (main_loop_rows (env_io e) prev (c :: cs)) as H.
  destruct (main_loop (env_io e) prev (c :: cs)) as [[p2 rows] act].
  destruct H as (Hf&Ha&Hl). simpl. repeat split; try assumption.
  eapply List.Forall_impl; [|exact Hf]. simpl. tauto.
Qed.

End TerminalFacts.

(** The value the GTK window resolves for a shown row's remote endpoint
    is not ["LOCALHOST"], in the state the cycle ends in. *)
Lemma gtk_shown_not_localhost e s :
  Forall (fun r => fst (Gtk.resolve_address (Gtk.update_connections e s)
                          (remote (rc_conn r))) <> "LOCALHOST")
    (Gtk.shown (Gtk.update_connections e s)).
Proof.
  apply List.Forall_forall. intros r Hr.
  apply GtkFacts.shown_from_rate_loop in Hr as [_ Hn].
  unfold GtkFacts.not_localhost in Hn.
  destruct (GtkFacts.update_connections_spec e s) as (_&_&_&_&_&_&Hh&Hc&_).
  rewrite (GtkFacts.resolve_address_value s). 2,3: assumption.
  intros He. rewrite He in Hn. discriminate.
Qed.

(** Claim C7: whatever the sort column and direction, no shown row of a
    GTK cycle, and no printed row of a terminal cycle, has a remote
    endpoint that resolves to ["LOCALHOST"]. *)
Theorem C7_localhost_never_shown e s prev :
  Forall (fun r => fst (Gtk.resolve_address (Gtk.update_connections e s)
                          (remote (rc_conn r))) <> "LOCALHOST")
    (Gtk.shown (Gtk.update_connections e s)) /\
  match snd (Terminal.main_cycle e prev) with
  | Terminal.Table rows _ _ =>
      Forall (fun p => Terminal.resolve_address (remote (Terminal.p_conn p))
                         <> "LOCALHOST") rows
  | Terminal.NoConnections => True
  end.
Proof.
  split; [apply gtk_shown_not_localhost|].
  pose proof (TerminalFacts.main_cycle_screen e prev) as H.
  destruct (snd (Terminal.main_cycle e prev)); [exact I|].
  destruct H as (_&_&Hf&_). exact Hf.
Qed.

Lemma gtk_shown_length e s :
  (length (Gtk.shown (Gtk.update_connections e s)) <= length (env_conns e))%nat.
Proof.
  destruct (GtkFacts.update_connections_spec e s) as (_&Hp&_).
  rewrite (Permutation_length Hp).
  pose proof (GtkFacts.rate_loop_conns (env_io e) (Gtk.prev_io s) ∅ (env_conns e)) as Hm.
  unfold GtkFacts.cycle_rates.
  rewrite <- Hm at 2. rewrite length_map. apply filter_length_le.
Qed.

(** Claim C10: the summary's total is the number of connections of the
    cycle, loopback ones included, while the active count only counts the
    shown (non-loopback) rows with a positive rate; in both programs.  In
    the concrete cycle below, the loopback connection of pid 7 moved 1024
    bytes, yet the GTK summary is (2 total, 0 active) with one shown row,
    and the terminal prints one row with the summary (2, 0). *)
Theorem C10_summary_counts e s prev :
  (Gtk.status (Gtk.update_connections e s) =
     Gtk.update_status (length (env_conns e))
       (length (List.filter Gtk.is_active (Gtk.shown (Gtk.update_connections e s)))) /\
   Forall (fun r => fst (Gtk.resolve_address (Gtk.update_connections e s)
                          (remote (rc_conn r))) <> "LOCALHOST")
     (Gtk.shown (Gtk.update_connections e s)) /\
   (length (Gtk.shown (Gtk.update_connections e s)) <= length (env_conns e))%nat) /\
  match snd (Terminal.main_cycle e prev) with
  | Terminal.Table rows total act =>
      total = length (env_conns e) /\
      act = length (List.filter Terminal.row_active rows) /\
      Forall (fun p => Terminal.resolve_address (remote (Terminal.p_conn p))
                         <> "LOCALHOST") rows /\
      (length rows <= total)%nat
  | Terminal.NoConnections => env_conns e = []
  end /\
  (let c_lo := mkConn "tcp" "ESTAB" "127.0.0.1:5000" "127.0.0.1:631" "cupsd" "7" in
   let c_any := mkConn "udp" "UNCONN" "0.0.0.0:5353" "0.0.0.0:*" "avahi" "N/A" in
   let e1 := mkEnv [c_lo; c_any] (fun _ => Some "rchar: 1024
wchar: 0") (fun _ => None) in
   let s1 := Gtk.set_prev_io {["7" := (0, 0)]} Gtk.init0 in
   map rx_rate (snd (GtkFacts.cycle_rates e1 s1)) = [1024; 0] /\
   Gtk.status (Gtk.update_connections e1 s1) = Some (2%nat, 0%nat) /\
   length (Gtk.shown (Gtk.update_connections e1 s1)) = 1%nat /\
   snd (Terminal.main_cycle e1 {["7" := (0, 0)]}) =
     Terminal.Table [Terminal.mkPrinted c_any 0 0] 2 0).
Proof.
  split; [|split].
  - split; [|split].
    + destruct (GtkFacts.update_connections_spec e s) as (_&_&Hs&_). exact Hs.
    + apply gtk_shown_not_localhost.
    + apply gtk_shown_length.
  - apply TerminalFacts.main_cycle_screen.
  - vm_compute. repeat split.
Qed.

Module SortFacts.
Import Gtk.

Section NumericKeys.
(** The decorated list carries numeric keys [KNum (f r)]: the TX or RX
    column. *)
Variable f : rconn -> Z.

Let R := fun a b : rconn => f a <= f b.
Let P := fun l : list (key * rconn) =>
  Forall (fun y => fst y = KNum (f (snd y))) l.

Lemma insert_hd a x l :
  HdRel R a (map snd l) -> f a <= f (snd x) ->
  HdRel R a (map snd (insert_stable x l)).
Proof.
  intros Hh Ha. destruct l as [|y l]; simpl; [constructor; exact Ha|].
  destruct (key_ltb (fst y) (fst x)); simpl; constructor;
    [inversion Hh; assumption | exact Ha].
Qed.

Lemma insert_sorted x l :
  P (x :: l) -> Sorted R (map snd l) -> Sorted R (map snd (insert_stable x l)).
Proof.
  induction l as [|y l IH]; intros HP HS; simpl; [repeat constructor|].
  inversion HP as [|? ? Hx HP1]; subst. inversion HP1 as [|? ? Hy HPl]; subst.
  rewrite Hx, Hy. simpl.
  destruct (f (snd y) <? f (snd x)) eqn:Hlt.
  - apply Z.ltb_lt in Hlt. simpl. apply Sorted_inv in HS as [HS Hhd].
    constructor.
    + apply IH; [constructor; assumption | exact HS].
    + apply insert_hd; [exact Hhd | unfold R; lia].
  - apply Z.ltb_ge in Hlt. simpl. constructor; [exact HS|].
    constructor. unfold R. lia.
Qed.

Lemma isort_keyed l : P l -> P (isort l).
Proof.
  intros HP. unfold P in *. apply List.Forall_forall. intros y Hy.
  rewrite List.Forall_forall in HP. apply HP.
  eapply Permutation_in; [apply GtkFacts.isort_perm|exact Hy].
Qed.


Lemma isort_sorted l : P l -> Sorted R (map snd (isort l)).
Proof.
  induction l as [|x l IH]; intros HP; simpl; [constructor|].
  inversion HP as [|? ? Hx HPl]; subst.
  apply insert_sorted; [constructor; [exact Hx | apply isort_keyed, HPl] | apply IH, HPl].
Qed.

(** Stability: the rows of any one key value keep their input order. *)
Lemma insert_filter k x l :
  P (x :: l) ->
  List.filter (fun r => f r =? k) (map snd (insert_stable x l)) =
  List.filter (fun r => f r =? k) (map snd (x :: l)).
Proof.
  induction l as [|y l IH]; intros HP; simpl; [reflexivity|].
  inversion HP as [|? ? Hx HP1]; subst. inversion HP1 as [|? ? Hy HPl]; subst.
  rewrite Hx, Hy. simpl.
  destruct (f (snd y) <? f (snd x)) eqn:Hlt; [|reflexivity].
  apply Z.ltb_lt in Hlt. simpl.
  rewrite IH by (constructor; assumption). simpl.
  destruct (f (snd y) =? k) eqn:Hyk; destruct (f (snd x) =? k) eqn:Hxk;
    try reflexivity.
  apply Z.eqb_eq in Hyk, Hxk. lia.
Qed.

Lemma isort_filter k l :
  P l ->
  List.filter (fun r => f r =? k) (map snd (isort l)) =
  List.filter (fun r => f r =? k) (map snd l).
Proof.
  induction l as [|x l IH]; intros HP; simpl; [reflexivity|].
  inversion HP as [|? ? Hx HPl]; subst.
  rewrite insert_filter by (constructor; [exact Hx | apply isort_keyed, HPl]).
  simpl. rewrite IH by exact HPl. reflexivity.
Qed.

End NumericKeys.

Lemma strongly_sorted_snoc {A} (Q : A -> A -> Prop) l a :
  StronglySorted Q l -> Forall (fun y => Q y a) l -> StronglySorted Q (l ++ [a]).
Proof.
  induction l as [|x l IH]; intros Hs Hf; simpl.
  - repeat constructor.
  - apply StronglySorted_inv in Hs as [Hs Hx]. inversion Hf; subst.
    constructor; [apply IH; assumption|].
    apply Forall_app. split; [exact Hx|]. repeat constructor. assumption.
Qed.

Lemma strongly_sorted_rev {A} (Q : A -> A -> Prop) l :
  StronglySorted Q l -> StronglySorted (fun a b => Q b a) (rev l).
Proof.
  induction l as [|x l IH]; intros Hs; simpl; [constructor|].
  apply StronglySorted_inv in Hs as [Hs Hx].
  apply strongly_sorted_snoc; [apply IH, Hs|].
  apply List.Forall_rev. exact Hx.
Qed.

(** With a numeric sort column, [get_sort_key] is the raw rate and has no
    effect on the window. *)
Lemma decorate_numeric e s rs (g : rconn -> Z) :
  (forall r, get_sort_key e s r = (KNum (g r), s)) ->
  decorate e s rs = (map (fun r => (KNum (g r), r)) rs, s).
Proof.
  intros Hk. induction rs as [|r rs IH]; simpl; [reflexivity|].
  rewrite Hk, IH. reflexivity.
Qed.

End SortFacts.

(** Claim C8: with the TX (5) or RX (6) column selected, [sort_connections]
    orders the rows by the raw rate (an integer, not its formatted text):
    non-decreasing when ascending, non-increasing when descending; it is a
    permutation of its input, the rows with one rate value keep their input
    order in both directions, and the window state is untouched. *)
Theorem C8_numeric_sort_stable e s rs :
  (Gtk.sort_column s = 5 \/ Gtk.sort_column s = 6)%nat ->
  let f := if (Gtk.sort_column s =? 5)%nat then tx_rate else rx_rate in
  let out := fst (Gtk.sort_connections e s rs) in
  Permutation out rs /\
  Sorted (fun a b => if Gtk.sort_ascending s then f a <= f b else f b <= f a) out /\
  (forall k, List.filter (fun r => f r =? k) out = List.filter (fun r => f r =? k) rs) /\
  snd (Gtk.sort_connections e s rs) = s.
Proof.
  intros Hcol f out.
  assert (Hk : forall r, Gtk.get_sort_key e s r = (Gtk.KNum (f r), s)).
  { intros r. unfold Gtk.get_sort_key, f.
    destruct Hcol as [-> | ->]; reflexivity. }
  set (L := map (fun r => (Gtk.KNum (f r), r)) rs).
  assert (HP : Forall (fun y => fst y = Gtk.KNum (f (snd y))) L).
  { unfold L. apply List.Forall_forall. intros y Hy.
    apply in_map_iff in Hy as (r & <- & _). reflexivity. }
  assert (HL : map snd L = rs).
  { unfold L. rewrite map_map. apply map_id. }
  assert (Hsc : Gtk.sort_connections e s rs =
                (map snd (Gtk.py_sorted (negb (Gtk.sort_ascending s)) L), s)).
  { unfold Gtk.sort_connections. destruct rs as [|r rs'] eqn:Hrs.
    { unfold L. simpl. unfold Gtk.py_sorted. now destruct (negb _). }
    rewrite <- Hrs. rewrite (SortFacts.decorate_numeric e s rs f Hk).
    unfold L. now rewrite Hrs. }
  unfold out. rewrite Hsc. simpl.
  split; [|split; [|split; [|reflexivity]]].
  - rewrite <- HL. apply Permutation_map, GtkFacts.py_sorted_perm.
  - unfold Gtk.py_sorted. destruct (Gtk.sort_ascending s); simpl.
    + apply SortFacts.isort_sorted. exact HP.
    + rewrite map_rev.
      apply StronglySorted_Sorted. apply SortFacts.strongly_sorted_rev.
      apply Sorted_StronglySorted; [intros a b c; lia|].
      apply SortFacts.isort_sorted. apply Forall_rev. exact HP.
  - intros k. rewrite <- HL. unfold Gtk.py_sorted.
    destruct (negb (Gtk.sort_ascending s)).
    + rewrite map_rev, filter_rev, SortFacts.isort_filter
        by (apply Forall_rev; exact HP).
      rewrite map_rev, filter_rev, rev_involutive. reflexivity.
    + apply SortFacts.isort_filter. exact HP.
Qed.

Module IoFacts.

Lemma digit_val_nonneg c v : Py.digit_val c = Some v -> 0 <= v.
Proof.
  unfold Py.digit_val.
  destruct ((48 <=? nat_of_ascii c)%nat && (nat_of_ascii c <=? 57)%nat) eqn:H;
    [|discriminate].
  apply andb_prop in H as [H _]. apply Nat.leb_le in H.
  intros [= <-]. lia.
Qed.

Lemma digits_go_nonneg acc seen us s v :
  0 <= acc -> Py.digits_go acc seen us s = Some v -> 0 <= v.
Proof.
  revert acc seen us. induction s as [|d s IH]; intros acc seen us Ha; simpl.
  - destruct (seen && negb us); [intros [= <-]; exact Ha | discriminate].
  - destruct (Ascii.eqb d "_").
    + destruct (seen && negb us); [apply IH; exact Ha | discriminate].
    + destruct (Py.digit_val d) as [w|] eqn:Hd; [|discriminate].
      apply IH. pose proof (digit_val_nonneg d w Hd). lia.
Qed.

Lemma int_of_string_nonneg tok v :
  Py.int_of_string tok = Some v ->
  (forall c r, tok = String c r -> Ascii.eqb c "-" = false) -> 0 <= v.
Proof.
  intros H Hs. destruct tok as [|c r].
  - unfold Py.int_of_string in H. simpl in H. discriminate.
  - specialize (Hs c r eq_refl).
    unfold Py.int_of_string in H.
    destruct c as [b0 b1 b2 b3 b4 b5 b6 b7].
    destruct b0, b1, b2, b3, b4, b5, b6, b7;
      try (discriminate Hs);
      eapply digits_go_nonneg; try exact H; lia.
Qed.

Lemma rchar_not_wchar l :
  Py.startswith l "rchar:" = true -> Py.startswith l "wchar:" = false.
Proof.
  unfold Py.startswith. destruct l as [|c l]; [discriminate|]. cbn -[ascii_dec].
  destruct (ascii_dec "r" c) as [<-|]; intros H; [reflexivity|discriminate H].
Qed.

(** The loop of [get_process_io], read as: any unparsable counter line
    raises; otherwise the last [rchar:] and [wchar:] values win. *)
Lemma io_loop_spec acc lines :
  io_loop acc lines =
  if existsb io_line_fails lines then None
  else Some (last_field (fst acc) "rchar:" lines,
             last_field (snd acc) "wchar:" lines).
Proof.
  revert acc. induction lines as [|l ls IH]; intros [rx tx];
    cbn [io_loop existsb last_field fst snd]; [reflexivity|].
  unfold io_line at 1, io_line_fails at 1, field_line at 1.
  unfold field_value at 1 2 3.
  destruct (Py.startswith l "rchar:") eqn:Hr.
  - rewrite (rchar_not_wchar l Hr). cbn [orb andb].
    destruct (nth_error (Py.split_ws l) 1) as [tok|]; cbn [negb orb]; [|reflexivity].
    destruct (Py.int_of_string tok) as [v|]; cbn [option_map negb orb]; [|reflexivity].
    rewrite IH. reflexivity.
  - destruct (Py.startswith l "wchar:") eqn:Hw; cbn [orb andb].
    + destruct (nth_error (Py.split_ws l) 1) as [tok|]; cbn [negb orb]; [|reflexivity].
      destruct (Py.int_of_string tok) as [v|]; cbn [option_map negb orb]; [|reflexivity].
      rewrite IH. reflexivity.
    + rewrite IH. reflexivity.
Qed.

Lemma last_field_nonneg d p lines :
  0 <= d -> (p = "rchar:" \/ p = "wchar:") ->
  existsb signed_field lines = false -> 0 <= last_field d p lines.
Proof.
  revert d. induction lines as [|l ls IH]; intros d Hd Hp Hs; simpl; [exact Hd|].
  simpl in Hs. apply orb_false_iff in Hs as [Hl Hs].
  apply IH; [|exact Hp|exact Hs].
  destruct (Py.startswith l p) eqn:Hpre; [|exact Hd].
  unfold field_value. destruct (nth_error (Py.split_ws l) 1) as [tok|] eqn:Ht;
    [|exact Hd].
  destruct (Py.int_of_string tok) as [v|] eqn:Hv; [|exact Hd].
  apply (int_of_string_nonneg tok v Hv).
  intros c r ->. unfold signed_field, field_line in Hl. rewrite Ht in Hl.
  destruct Hp as [->| ->]; rewrite Hpre in Hl; simpl in Hl;
    [exact Hl | now rewrite orb_true_r in Hl].
Qed.

End IoFacts.

(** Claim C9, as stated (the reader always returns non-negative values,
    and [(0, 0)] when the counter lines are absent), fails: [int] accepts
    a sign, so a [rchar: -5] line is returned as -5; and a file with only
    an [rchar:] line gives that value with 0 for the missing [wchar:]. *)
Theorem C9_negative_and_partial_counters :
  get_process_io (Some "rchar: -5
wchar: 3") = (-5, 3) /\
  get_process_io (Some "rchar: 1024") = (1024, 0).
Proof. split; reflexivity. Qed.

(** Claim C9, amended: [get_process_io] is total (a function to [Z * Z],
    every exception caught); it returns [(0, 0)] when the file cannot be
    read or when some [rchar:]/[wchar:] line has no second field or one
    [int] rejects; otherwise it returns the values of the last [rchar:] and
    the last [wchar:] line, each 0 when its line is absent (so [(0, 0)]
    when both are absent); the values are non-negative whenever no counter
    line's value is written with a leading minus sign. *)
Theorem C9_io_reader_total data :
  get_process_io None = (0, 0) /\
  get_process_io (Some data) =
    (let lines := Py.split_on Py.newline data in
     if existsb io_line_fails lines then (0, 0)
     else (last_field 0 "rchar:" lines, last_field 0 "wchar:" lines)) /\
  (existsb signed_field (Py.split_on Py.newline data) = false ->
   0 <= fst (get_process_io (Some data)) /\ 0 <= snd (get_process_io (Some data))).
Proof.
  assert (Heq : get_process_io (Some data) =
    (let lines := Py.split_on Py.newline data in
     if existsb io_line_fails lines then (0, 0)
     else (last_field 0 "rchar:" lines, last_field 0 "wchar:" lines))).
  { unfold get_process_io. rewrite IoFacts.io_loop_spec. simpl.
    destruct (existsb io_line_fails (Py.split_on Py.newline data)); reflexivity. }
  split; [reflexivity|]. split; [exact Heq|].
  intros Hs. rewrite Heq. simpl.
  destruct (existsb io_line_fails (Py.split_on Py.newline data)); simpl; [lia|].
  split; apply IoFacts.last_field_nonneg; auto; lia.
Qed.

(* ------------------------------------------------------------------ *)
(** ** Witnesses: the claims' hypotheses hold at concrete inputs        *)
(* ------------------------------------------------------------------ *)

(** Scenario 3's endpoint after its lookup completed: the cache holds the
    host name and the IP is still pending. *)
Lemma C3_witness :
  let addr := "93.184.216.34:443" in
  let s1 := snd (Gtk.resolve_address Gtk.init0 addr) in
  let e0 := mkEnv [] (fun _ => None) (fun _ => None) in
  let s' := Gtk.update_resolution_cache e0 s1 addr "example.com:443" in
  (addr ∉ Gtk.resolution_pending s1) /\
  (Gtk.resolution_cache s' !! addr = Some "example.com:443" /\
   Gtk.resolution_pending s1 ⊆ Gtk.resolution_pending s' /\
   Gtk.main_queue s' = Gtk.main_queue s1 ++ [Gtk.TUpdate]) /\
  "93.184.216.34" ∈ Gtk.resolution_pending s1.
Proof.
  cbn zeta.
  assert (Hn : "93.184.216.34:443" ∉ Gtk.resolution_pending
                 (snd (Gtk.resolve_address Gtk.init0 "93.184.216.34:443"))).
  { refine (bool_decide_unpack _ _). vm_compute. exact I. }
  split; [exact Hn|]. split.
  - apply C3_pending_not_cleared. exact Hn.
  - refine (bool_decide_unpack _ _). vm_compute. exact I.
Defined.

Lemma C5_witness :
  let s := Gtk.init0 in
  let addr := "93.184.216.34:443" in
  (Gtk.resolve_hosts s = true /\ Gtk.resolution_cache s !! addr = None /\
   (Gtk.ip_part_of addr ∉ Gtk.resolution_pending s) /\
   is_any addr = false /\ is_loopback addr = false /\ is_mdns addr = false /\
   Py.contains_char Py.colon addr = true) /\
  (let s1 := snd (Gtk.resolve_address s addr) in
   let s2 := snd (Gtk.resolve_address s1 addr) in
   fst (Gtk.resolve_address s addr) = addr /\
   Gtk.spawned s1 = Gtk.spawned s ++ [(Gtk.ip_part_of addr, addr)] /\
   Gtk.resolution_pending s1 = {[Gtk.ip_part_of addr]} ∪ Gtk.resolution_pending s /\
   fst (Gtk.resolve_address s1 addr) = addr /\
   s2 = s1) /\
  (is_any "127.0.0.1:631" = false /\ is_loopback "127.0.0.1:631" = true) /\
  Gtk.resolve_address s "127.0.0.1:631" = ("LOCALHOST", s).
Proof.
  cbn zeta.
  assert (Hp : Gtk.ip_part_of "93.184.216.34:443" ∉ Gtk.resolution_pending Gtk.init0).
  { refine (bool_decide_unpack _ _). vm_compute. exact I. }
  assert (Ha : is_any "127.0.0.1:631" = false) by reflexivity.
  assert (Hl : is_loopback "127.0.0.1:631" = true) by reflexivity.
  split; [repeat split; try reflexivity; exact Hp|].
  split; [apply (proj1 C5_first_call_schedules_once); try reflexivity; exact Hp|].
  split; [split; [exact Ha|exact Hl]|].
  exact (proj1 (proj2 (proj2 C5_first_call_schedules_once Gtk.init0 "127.0.0.1:631")) Ha Hl).
Defined.

Lemma acquire_n_reachable n s : Gtk.reachable s -> Gtk.reachable (Sched.acquire_n n s).
Proof.
  revert s. induction n as [|n IH]; intros s Hr; simpl; [exact Hr|].
  destruct (Gtk.spawned s) as [|th rest] eqn:E; [exact Hr|].
  destruct (0 <? Gtk.sem s)%nat eqn:Hs; [|exact Hr].
  apply IH. apply (Gtk.reach_step s); [exact Hr|].
  apply (Gtk.step_acquire s [] th rest E). now apply Nat.ltb_lt.
Qed.

(** A burst of eight new IPs (seven remote endpoints and the local one):
    eight lookup threads are started, five enter the semaphore, three
    wait. *)
Lemma C6_witness :
  let mk := fun r => mkConn "tcp" "ESTAB" "192.168.1.5:40000" r "curl" NA in
  let e := mkEnv (map mk ["10.0.0.1:443"; "10.0.0.2:443"; "10.0.0.3:443";
                          "10.0.0.4:443"; "10.0.0.5:443"; "10.0.0.6:443";
                          "10.0.0.7:443"])
             (fun _ => None) (fun _ => None) in
  let s := Sched.acquire_n 8 (Gtk.init_state e) in
  Gtk.reachable s /\
  ((Gtk.sem s + length (Gtk.inflight s) = 5)%nat /\
   (length (Gtk.inflight s) <= 5)%nat) /\
  length (Gtk.spawned (Gtk.init_state e)) = 8%nat /\
  length (Gtk.inflight s) = 5%nat /\ length (Gtk.spawned s) = 3%nat /\
  Gtk.sem s = 0%nat.
Proof.
  cbv zeta. set (e := mkEnv _ _ _).
  assert (Hr : Gtk.reachable (Sched.acquire_n 8 (Gtk.init_state e)))
    by (apply acquire_n_reachable; apply Gtk.reach_init).
  split; [exact Hr|]. split; [exact (C6_at_most_five_inflight _ Hr)|].
  vm_compute. repeat split.
Defined.

(** Descending TX sort of three rows (1024, 900, 1024 bytes/s): the two
    1024 rows come first, in their input order, then the 900 row. *)
Lemma C8_witness :
  let mk := fun (p : string) (tx : Z) =>
    mkRConn (mkConn "tcp" "ESTAB" "10.0.0.2:1" "10.0.0.9:443" "app" p) 0 tx in
  let rs := [mk "1" 1024; mk "2" 900; mk "3" 1024] in
  let s := Gtk.set_sort 5 false Gtk.init0 in
  let e0 := mkEnv [] (fun _ => None) (fun _ => None) in
  (Gtk.sort_column s = 5 \/ Gtk.sort_column s = 6)%nat /\
  (let f := if (Gtk.sort_column s =? 5)%nat then tx_rate else rx_rate in
   let out := fst (Gtk.sort_connections e0 s rs) in
   Permutation out rs /\
   Sorted (fun a b => if Gtk.sort_ascending s then f a <= f b else f b <= f a) out /\
   (forall k, List.filter (fun r => f r =? k) out = List.filter (fun r => f r =? k) rs) /\
   snd (Gtk.sort_connections e0 s rs) = s) /\
  map (fun r => pid (rc_conn r)) (fst (Gtk.sort_connections e0 s rs)) = ["1"; "3"; "2"].
Proof.
  cbn zeta. split; [left; reflexivity|]. split.
  - apply C8_numeric_sort_stable. left. reflexivity.
  - vm_compute. reflexivity.
Defined.

Lemma C9_witness :
  let data := "rchar: 2_048
wchar: 17" in
  existsb signed_field (Py.split_on Py.newline data) = false /\
  (0 <= fst (get_process_io (Some data)) /\ 0 <= snd (get_process_io (Some data))) /\
  get_process_io (Some data) = (2048, 17).
Proof.
  cbn zeta.
  assert (Hs : existsb signed_field (Py.split_on Py.newline "rchar: 2_048
wchar: 17") = false) by (vm_compute; reflexivity).
  split; [exact Hs|]. split.
  - apply (proj2 (proj2 (C9_io_reader_total _))). exact Hs.
  - vm_compute. reflexivity.
Defined.

(* ================================================================== *)
(** * Further properties of the code                                     *)
(* ================================================================== *)

Module ConnFacts.

Lemma words_go_lstrip s : PyStrip.lstrip s = "" -> Py.words_go "" s = [].
Proof.
  induction s as [|d r IH]; simpl; [reflexivity|].
  destruct (Py.is_py_space d); [exact IH|discriminate].
Qed.

Lemma rstrip_empty y : PyStrip.rstrip y = "" -> PyStrip.lstrip y = "".
Proof.
  induction y as [|d r IH]; simpl; [reflexivity|].
  destruct (PyStrip.rstrip r) eqn:E; [|discriminate].
  destruct (Py.is_py_space d) eqn:Hs; [intros _; apply IH; reflexivity|discriminate].
Qed.

Lemma lstrip_idem s : PyStrip.lstrip (PyStrip.lstrip s) = PyStrip.lstrip s.
Proof.
  induction s as [|d r IH]; simpl; [reflexivity|].
  destruct (Py.is_py_space d) eqn:Hs; [exact IH|simpl; now rewrite Hs].
Qed.

(** A line that [strip()] empties has no words. *)
Lemma strip_empty_words s : PyStrip.strip s = "" -> Py.split_ws s = [].
Proof.
  unfold PyStrip.strip, Py.split_ws. intros H.
  apply rstrip_empty in H. rewrite lstrip_idem in H. now apply words_go_lstrip.
Qed.

Lemma parse_line_fields io ps l :
  match Conns.parse_line io ps l with
  | Some c =>
      (6 <= length (Py.split_ws l))%nat /\
      (protocol c, cstate c, local c, remote c) =
        (nth 0 (Py.split_ws l) "", nth 1 (Py.split_ws l) "",
         nth 4 (Py.split_ws l) "", nth 5 (Py.split_ws l) "")
  | None => (length (Py.split_ws l) < 6)%nat
  end.
Proof.
  unfold Conns.parse_line.
  destruct (String.eqb (PyStrip.strip l) "") eqn:He.
  { apply String.eqb_eq in He. rewrite (strip_empty_words l He). simpl. lia. }
  cbn zeta.
  destruct (length (Py.split_ws l) <? 6)%nat eqn:Hl.
  { apply Nat.ltb_lt in Hl. exact Hl. }
  apply Nat.ltb_ge in Hl.
  destruct (Py.split_ws l) as [|a [|b [|x [|y [|la [|ra rest]]]]]];
    simpl in Hl; try lia.
  destruct (Conns.owner_of _) as [prog p].
  destruct (String.eqb p NA && Conns.endswith ra ":22");
    [destruct (Conns.guess_owner io ps)|]; simpl; split; auto.
Qed.


Lemma digit_run_digits s :
  forallb Conns.is_digit (list_ascii_of_string (Conns.digit_run s)) = true.
Proof.
  induction s as [|d r IH]; simpl; [reflexivity|].
  destruct (Conns.is_digit d) eqn:Hd; simpl; [now rewrite Hd, IH|reflexivity].
Qed.

Lemma search_pid_digits s d :
  Conns.search_pid s = Some d ->
  d <> "" /\ forallb Conns.is_digit (list_ascii_of_string d) = true.
Proof.
  induction s as [|c r IH]; cbn [Conns.search_pid]; [discriminate|].
  destruct (String.prefix "pid=" (String c r)); [|exact IH].
  pose proof (digit_run_digits (Conns.drop 4 (String c r))) as Hd.
  destruct (Conns.digit_run (Conns.drop 4 (String c r))) as [|c' w]; [exact IH|].
  intros [= <-]. split; [discriminate|exact Hd].
Qed.

Lemma owner_of_pid parts :
  snd (Conns.owner_of parts) = NA \/
  (snd (Conns.owner_of parts) <> "" /\
   forallb Conns.is_digit (list_ascii_of_string (snd (Conns.owner_of parts))) = true).
Proof.
  unfold Conns.owner_of. destruct (Conns.find_users parts) as [part|]; [|now left].
  simpl. destruct (Conns.search_pid part) as [d|] eqn:E; [|now left].
  right. exact (search_pid_digits _ _ E).
Qed.






End ConnFacts.

(** [get_connections] turns the lines of the [ss] output after its first
    (header) line that have at least six words into connections, in
    order: protocol, state, local and remote endpoint are words 1, 2, 5
    and 6 of the line; blank and shorter lines are skipped, and a failed
    [ss] gives no connection. *)
Theorem get_connections_rows io ss ps :
  map (fun c => (protocol c, cstate c, local c, remote c))
    (Conns.get_connections io ss ps) =
  match ss with
  | None => []
  | Some out =>
      map (fun ws => (nth 0 ws "", nth 1 ws "", nth 4 ws "", nth 5 ws ""))
        (List.filter (fun ws => (6 <=? length ws)%nat)
           (map Py.split_ws (tl (Py.split_on Py.newline (PyStrip.strip out)))))
  end.
Proof.
  unfold Conns.get_connections. destruct ss as [out|]; [|reflexivity].
  induction (tl (Py.split_on Py.newline (PyStrip.strip out))) as [|l ls IH];
    cbn [Conns.conn_loop map List.filter]; [reflexivity|].
  pose proof (ConnFacts.parse_line_fields io ps l) as H.
  destruct (Conns.parse_line io ps l) as [c|].
  - destruct H as [H6 Hf]. apply Nat.leb_le in H6. rewrite H6.
    cbn [map]. rewrite Hf, IH. reflexivity.
  - apply Nat.leb_gt in H. rewrite H. exact IH.
Qed.


Module FmtFacts.

Lemma str_app_assoc (a b c : string) :
  String.append a (String.append b c) = String.append (String.append a b) c.
Proof. induction a as [|x a IH]; [reflexivity|]. exact (f_equal (String x) IH). Qed.

Lemma round_div_ge a b : 0 < b -> a / b <= Fmt.round_div a b.
Proof.
  intros Hb. unfold Fmt.round_div.
  destruct (2 * (a mod b) <? b); [lia|].
  destruct (b <? 2 * (a mod b)); [lia|]. destruct (Z.even (a / b)); lia.
Qed.

Lemma round_div_lo a b lo : 0 < b -> lo * b <= a -> lo <= Fmt.round_div a b.
Proof.
  intros Hb Hl. pose proof (round_div_ge a b Hb).
  assert (lo <= a / b) by (apply Z.div_le_lower_bound; lia). lia.
Qed.

Lemma round_div_hi a b hi : 0 < b -> a <= hi * b -> Fmt.round_div a b <= hi.
Proof.
  intros Hb Hh. unfold Fmt.round_div.
  pose proof (Z.div_mod a b ltac:(lia)) as Hd.
  pose proof (Z.mod_pos_bound a b Hb) as Hm.
  destruct (Z.eq_dec a (hi * b)) as [->|Hne].
  - rewrite Z.mod_mul, Z.div_mul by lia. simpl.
    replace (2 * 0 <? b) with true by (symmetry; apply Z.ltb_lt; lia). lia.
  - assert (a / b <= hi - 1).
    { apply Z.lt_succ_r. apply Z.div_lt_upper_bound; lia. }
    destruct (2 * (a mod b) <? b); [lia|].
    destruct (b <? 2 * (a mod b)); [lia|]. destruct (Z.even (a / b)); lia.
Qed.

Lemma round_div_1 a : Fmt.round_div a 1 = a.
Proof. unfold Fmt.round_div. rewrite Z.div_1_r, Z.mod_1_r. reflexivity. Qed.

Lemma float_of_int_small v : - 2 ^ 53 < v < 2 ^ 53 -> Fmt.float_of_int v = Some v.
Proof.
  intros Hv. unfold Fmt.float_of_int, Fmt.float_mag.
  replace (Z.abs v <? 2 ^ 53) with true by (symmetry; apply Z.ltb_lt; lia).
  replace (2 ^ 1024 <=? Z.abs v) with false
    by (symmetry; apply Z.leb_gt; assert (2 ^ 53 < 2 ^ 1024) by (vm_compute; reflexivity); lia).
  f_equal. destruct v; reflexivity.
Qed.

Lemma float_mag_ge n : 2 ^ 53 <= n -> 2 ^ Z.log2 n <= Fmt.float_mag n.
Proof.
  intros Hn. unfold Fmt.float_mag.
  replace (n <? 2 ^ 53) with false by (symmetry; apply Z.ltb_ge; lia).
  assert (Hl : 53 <= Z.log2 n).
  { rewrite <- (Z.log2_pow2 53) by lia. now apply Z.log2_le_mono. }
  set (k := Z.log2 n - 52).
  assert (Hk : 2 ^ Z.log2 n = 2 ^ 52 * 2 ^ k).
  { rewrite <- Z.pow_add_r by lia. f_equal. unfold k. lia. }
  assert (Hpk : 0 < 2 ^ k) by (apply Z.pow_pos_nonneg; lia).
  pose proof (Z.log2_spec n ltac:(lia)) as [Hs _].
  assert (2 ^ 52 <= n / 2 ^ k) by (apply Z.div_le_lower_bound; lia).
  pose proof (round_div_ge n (2 ^ k) Hpk).
  rewrite Hk. apply Z.mul_le_mono_nonneg_r; lia.
Qed.

Lemma float_of_int_overflow v : 2 ^ 1024 <= Z.abs v -> Fmt.float_of_int v = None.
Proof.
  intros Hv. unfold Fmt.float_of_int.
  assert (H53 : 2 ^ 53 <= Z.abs v)
    by (assert (2 ^ 53 < 2 ^ 1024) by (vm_compute; reflexivity); lia).
  pose proof (float_mag_ge (Z.abs v) H53) as Hm.
  assert (Hl : 1024 <= Z.log2 (Z.abs v)).
  { rewrite <- (Z.log2_pow2 1024) by lia. now apply Z.log2_le_mono. }
  assert (2 ^ 1024 <= 2 ^ Z.log2 (Z.abs v)) by (apply Z.pow_le_mono_r; lia).
  replace (2 ^ 1024 <=? Fmt.float_mag (Z.abs v)) with true
    by (symmetry; apply Z.leb_le; lia).
  reflexivity.
Qed.

Lemma fb_loop_overflow sfx v :
  2 ^ 1024 <= Z.abs v -> Fmt.fb_loop sfx Fmt.units (Fmt.IntV v) = None.
Proof.
  intros Hv. unfold Fmt.units. cbn [Fmt.fb_loop Fmt.show].
  rewrite (float_of_int_overflow v Hv). now destruct (v <? 1024).
Qed.

Lemma tenths_range v den :
  0 < den -> den <= v <= 1024 * den -> 10 <= Fmt.tenths v den <= 10240.
Proof.
  intros Hd Hv. unfold Fmt.tenths. rewrite Z.abs_eq by lia.
  split; [apply round_div_lo|apply round_div_hi]; lia.
Qed.

Lemma fb_loop_units sfx v :
  0 <= v < 2 ^ 53 ->
  Fmt.fb_loop sfx Fmt.units (Fmt.IntV v) =
  Some (if v <? 2 ^ 10 then (Fmt.fmt1 v 1 ++ "B" ++ sfx)%string
        else if v <? 2 ^ 20 then (Fmt.fmt1 v (2 ^ 10) ++ "KB" ++ sfx)%string
        else if v <? 2 ^ 30 then (Fmt.fmt1 v (2 ^ 20) ++ "MB" ++ sfx)%string
        else if v <? 2 ^ 40 then (Fmt.fmt1 v (2 ^ 30) ++ "GB" ++ sfx)%string
        else (Fmt.fmt1 v (2 ^ 40) ++ "TB" ++ sfx)%string).
Proof.
  intros Hv. assert (Hf : Fmt.float_of_int v = Some v)
    by (apply float_of_int_small; lia).
  unfold Fmt.units. cbn [Fmt.fb_loop Fmt.show].
  change (2 ^ 10) with 1024. change (2 ^ 20) with (1024 * 1024).
  change (2 ^ 30) with (1024 * (1024 * 1024)).
  change (2 ^ 40) with (1024 * (1024 * (1024 * 1024))).
  destruct (v <? 1024); [rewrite Hf; reflexivity|]. rewrite Hf.
  destruct (v <? 1024 * 1024); [reflexivity|].
  destruct (v <? 1024 * (1024 * 1024)); [reflexivity|].
  destruct (v <? 1024 * (1024 * (1024 * 1024))); reflexivity.
Qed.

End FmtFacts.

(** [format_bytes] of the GTK window picks its unit by the raw byte count:
    below 1024 bytes/s it shows bytes, then KB below 2^20, MB below 2^30,
    GB below 2^40 and TB above, each time showing the count divided by the
    unit with one decimal (for counts a double holds exactly). *)
Theorem format_bytes_units v :
  0 <= v < 2 ^ 53 ->
  GtkView.format_bytes v =
  Some (if v <? 2 ^ 10 then (Fmt.fmt1 v 1 ++ "B/s")%string
        else if v <? 2 ^ 20 then (Fmt.fmt1 v (2 ^ 10) ++ "KB/s")%string
        else if v <? 2 ^ 30 then (Fmt.fmt1 v (2 ^ 20) ++ "MB/s")%string
        else if v <? 2 ^ 40 then (Fmt.fmt1 v (2 ^ 30) ++ "GB/s")%string
        else (Fmt.fmt1 v (2 ^ 40) ++ "TB/s")%string).
Proof.
  intros Hv. exact (FmtFacts.fb_loop_units "/s" v Hv).
Qed.

(** In the KB, MB and GB ranges both programs show the count divided by
    the unit, and that number lies between 1.0 and 1024.0, both included:
    a count just under the next unit is rounded up to 1024.0 of the
    smaller unit instead of being shown as 1.0 of the next one. *)
Theorem format_bytes_scaled_range v k :
  1 <= k <= 3 -> 2 ^ (10 * k) <= v < 2 ^ (10 * (k + 1)) ->
  let u := nth (Z.to_nat (k - 1)) ["KB"; "MB"; "GB"] "" in
  GtkView.format_bytes v = Some (Fmt.fmt1 v (2 ^ (10 * k)) ++ u ++ "/s")%string /\
  TerminalView.format_bytes v = Some (Fmt.fmt1 v (2 ^ (10 * k)) ++ u ++ "")%string /\
  10 <= Fmt.tenths v (2 ^ (10 * k)) <= 10240.
Proof.
  intros Hk Hv. cbv zeta.
  assert (Ht : 10 <= Fmt.tenths v (2 ^ (10 * k)) <= 10240).
  { apply FmtFacts.tenths_range; [apply Z.pow_pos_nonneg; lia|].
    rewrite Z.mul_add_distr_l, Z.pow_add_r in Hv by lia.
    change (2 ^ (10 * 1)) with 1024 in Hv. lia. }
  assert (P : 0 < 2 ^ 10 < 2 ^ 20 /\ 2 ^ 20 < 2 ^ 30 /\ 2 ^ 30 < 2 ^ 40 /\
              2 ^ 40 < 2 ^ 53) by (repeat split; vm_compute; reflexivity).
  unfold GtkView.format_bytes, TerminalView.format_bytes.
  assert (Hk3 : k = 1 \/ k = 2 \/ k = 3) by lia.
  destruct Hk3 as [ -> | [ -> | -> ] ]; cbn [Z.mul Z.add Z.sub Z.to_nat nth] in Hv |- *;
    rewrite !FmtFacts.fb_loop_units by lia.
  - replace (v <? 2 ^ 10) with false by (symmetry; apply Z.ltb_ge; lia).
    replace (v <? 2 ^ 20) with true by (symmetry; apply Z.ltb_lt; lia).
    auto.
  - replace (v <? 2 ^ 10) with false by (symmetry; apply Z.ltb_ge; lia).
    replace (v <? 2 ^ 20) with false by (symmetry; apply Z.ltb_ge; lia).
    replace (v <? 2 ^ 30) with true by (symmetry; apply Z.ltb_lt; lia).
    auto.
  - replace (v <? 2 ^ 10) with false by (symmetry; apply Z.ltb_ge; lia).
    replace (v <? 2 ^ 20) with false by (symmetry; apply Z.ltb_ge; lia).
    replace (v <? 2 ^ 30) with false by (symmetry; apply Z.ltb_ge; lia).
    replace (v <? 2 ^ 40) with true by (symmetry; apply Z.ltb_lt; lia).
    auto.
Qed.

(** The terminal's [format_bytes] shows every count below 1024 that a
    double holds exactly, negative ones included, as the integer followed
    by [.0B]: a negative rate is printed with its minus sign. *)
Theorem terminal_format_bytes_small v :
  - 2 ^ 53 < v < 1024 ->
  TerminalView.format_bytes v =
  Some ((if Z.ltb v 0 then "-" else "") ++ Fmt.str_of_z (Z.abs v) ++ ".0B")%string.
Proof.
  intros Hv.
  assert (Hf : Fmt.float_of_int v = Some v)
    by (apply FmtFacts.float_of_int_small;
        assert (1024 < 2 ^ 53) by (vm_compute; reflexivity); lia).
  unfold TerminalView.format_bytes, Fmt.units. cbn [Fmt.fb_loop Fmt.show].
  replace (v <? 1024) with true by (symmetry; apply Z.ltb_lt; lia).
  rewrite Hf. simpl option_map. f_equal.
  unfold Fmt.fmt1, Fmt.tenths. rewrite FmtFacts.round_div_1.
  rewrite (Z.mul_comm 10), Z.div_mul, Z.mod_mul by lia.
  rewrite <- !FmtFacts.str_app_assoc. reflexivity.
Qed.

(** [format_bytes] (both programs) raises [OverflowError] instead of
    returning a text for a count of absolute value [2^1024] or more. *)
Theorem format_bytes_overflow v :
  2 ^ 1024 <= Z.abs v ->
  TerminalView.format_bytes v = None /\ GtkView.format_bytes v = None.
Proof.
  intros Hv. split; apply FmtFacts.fb_loop_overflow; exact Hv.
Qed.

Module ViewFacts.

Lemma take_length n t :
  (n <= String.length t)%nat -> String.length (Py.take n t) = n.
Proof.
  unfold Py.take. revert n. induction t as [|c t IH]; intros n Hn; simpl in *.
  - destruct n; [reflexivity|lia].
  - destruct n; [reflexivity|]. simpl. f_equal. apply IH. lia.
Qed.

Lemma take_prefix n t : String.prefix (Py.take n t) t = true.
Proof.
  unfold Py.take. revert n. induction t as [|c t IH]; intros n; simpl.
  - destruct n; reflexivity.
  - destruct n; [reflexivity|]. simpl.
    destruct (ascii_dec c c) as [_|Hne]; [apply IH|contradiction].
Qed.

Lemma cut_spec limit keep t :
  (keep <= limit)%nat ->
  (TerminalView.cut limit keep t = t /\ (String.length t <= limit)%nat) \/
  ((limit < String.length t)%nat /\
   String.length (TerminalView.cut limit keep t) = keep /\
   String.prefix (TerminalView.cut limit keep t) t = true).
Proof.
  intros Hk. unfold TerminalView.cut.
  destruct (limit <? String.length t)%nat eqn:Hl.
  - apply Nat.ltb_lt in Hl. right. split; [exact Hl|].
    split; [apply take_length; lia|apply take_prefix].
  - apply Nat.ltb_ge in Hl. left. auto.
Qed.

Lemma contains_char_app c a b :
  Py.contains_char c (a ++ b) = Py.contains_char c a || Py.contains_char c b.
Proof.
  induction a as [|d a IH]; [reflexivity|].
  change (String d a ++ b)%string with (String d (a ++ b)).
  cbn [Py.contains_char]. destruct (Ascii.eqb c d); [reflexivity|exact IH].
Qed.

Lemma replace_nul_no_nul s : Py.contains_char "000" (PyStrip.replace_nul s) = false.
Proof.
  induction s as [|c s IH]; [reflexivity|]. cbn [PyStrip.replace_nul Py.contains_char].
  destruct (Ascii.eqb c "000") eqn:Hc; [exact IH|].
  rewrite Ascii.eqb_sym, Hc. exact IH.
Qed.

Lemma relabel_nth i0 labels hs col asc :
  length labels = length hs ->
  forall i h, nth_error hs i = Some h ->
  nth_error (GtkView.relabel i0 labels hs col asc) i =
    Some (if (i0 + i =? col)%nat then (h ++ GtkView.arrow asc)%string else h).
Proof.
  revert i0 labels. induction hs as [|h0 hs IH]; intros i0 labels Hl i h Hh.
  - destruct i; discriminate.
  - destruct labels as [|l ls]; [discriminate|]. simpl in Hl.
    destruct i as [|i]; simpl in Hh |- *.
    + injection Hh as <-. now rewrite Nat.add_0_r.
    + rewrite (IH (S i0) ls ltac:(lia) i h Hh). now rewrite Nat.add_succ_r.
Qed.

End ViewFacts.

(** The Program(PID), Local and Remote texts of a row: [print_table_row]
    shows a Program(PID) or Local text of at most 20 characters whole and
    a longer one by its first 19, one less than the column width, and a
    Remote text of at most 25 characters whole and a longer one by its
    first 24; [get_row_data] of the GTK window shows its Process(ID),
    Source and Destination texts whole up to 30 characters and by their
    first 30 otherwise. *)
Theorem print_table_row_fields c e s r :
  (let prog_pid := if String.eqb (pid c) NA then program c
                   else (program c ++ "(" ++ pid c ++ ")")%string in
   let '(pp, lo, re) := TerminalView.row_fields c in
   TerminalView.shown_as 20 19 prog_pid pp /\
   TerminalView.shown_as 20 19 (Terminal.resolve_address (local c)) lo /\
   TerminalView.shown_as 25 24 (Terminal.resolve_address (remote c)) re) /\
  (let c' := rc_conn r in
   let prog_pid := if String.eqb (pid c') NA then program c'
                   else (program c' ++ "(" ++ pid c' ++ ")")%string in
   let '(lr, s1) := Gtk.resolve_address s (local c') in
   let rr := fst (Gtk.resolve_address s1 (remote c')) in
   match fst (Gtk.get_row_data e s r) with
   | Gtk.CText pp :: _ :: Gtk.CText lo :: Gtk.CText re :: _ =>
       TerminalView.shown_as 30 30 prog_pid pp /\
       TerminalView.shown_as 30 30 lr lo /\ TerminalView.shown_as 30 30 rr re
   | _ => False
   end).
Proof.
  split.
  - unfold TerminalView.row_fields. cbv zeta.
    split; [|split]; apply ViewFacts.cut_spec; lia.
  - unfold Gtk.get_row_data. cbv zeta.
    destruct (Gtk.resolve_address s (local (rc_conn r))) as [lr s1].
    destruct (Gtk.resolve_address s1 (remote (rc_conn r))) as [rr s2]. cbn [fst].
    unfold Gtk.trunc30.
    split; [|split]; apply (ViewFacts.cut_spec 30 30); lia.
Qed.

(** In a terminal cycle the active count of the summary is the number of
    printed rows that [print_table_row] draws in a colour (green, blue or
    red): the colours and the count use the same test. *)
Theorem terminal_active_rows_coloured e prev :
  match snd (Terminal.main_cycle e prev) with
  | Terminal.Table rows _ act =>
      act = length (List.filter
              (fun p => negb (String.eqb (TerminalView.row_color (Terminal.p_rx p)
                                                                 (Terminal.p_tx p)) ""))
              rows)
  | Terminal.NoConnections => True
  end.
Proof.
  pose proof (TerminalFacts.main_cycle_screen e prev) as H.
  destruct (snd (Terminal.main_cycle e prev)) as [|rows total act]; [exact I|].
  destruct H as (_&->&_). f_equal. apply filter_ext. intros p.
  unfold Terminal.row_active, TerminalView.row_color.
  destruct (0 <? Terminal.p_rx p), (0 <? Terminal.p_tx p); reflexivity.
Qed.

(** [get_process_path] never returns an empty text, and the text has no
    NUL character (the separators of [/proc/<pid>/cmdline] become spaces),
    for a pid without one. *)
Theorem get_process_path_text p f :
  Py.contains_char "000" p = false ->
  Gtk.get_process_path p f <> "" /\
  Py.contains_char "000" (Gtk.get_process_path p f) = false.
Proof.
  intros Hp. unfold Gtk.get_process_path.
  destruct f as [raw|]; [|split; [discriminate|reflexivity]].
  destruct (PyStrip.strip raw) as [|c r].
  - split; [discriminate|].
    rewrite !ViewFacts.contains_char_app, Hp. reflexivity.
  - split; [simpl; discriminate|apply ViewFacts.replace_nul_no_nul].
Qed.

(** With hostname resolution off, the GTK window's [resolve_address]
    returns what the terminal's [resolve_address] returns (ANY, LOCALHOST,
    MDNS or the endpoint itself) and changes nothing: no cache read, no
    lookup started. *)
Theorem resolve_address_disabled s addr :
  Gtk.resolve_hosts s = false ->
  Gtk.resolve_address s addr = (Terminal.resolve_address addr, s).
Proof.
  intros Hoff. unfold Gtk.resolve_address, Terminal.resolve_address.
  destruct (is_any addr); [reflexivity|].
  destruct (is_loopback addr); [reflexivity|].
  destruct (is_mdns addr); [reflexivity|].
  now rewrite Hoff.
Qed.

Module GtkMore.
Import Gtk GtkFacts.

Lemma rate_loop_fst_prev io prev prev' cur conns :
  fst (rate_loop io prev cur conns) = fst (rate_loop io prev' cur conns).
Proof.
  revert cur. induction conns as [|c cs IH]; intros cur; simpl; [reflexivity|].
  destruct (String.eqb (pid c) NA).
  - specialize (IH cur).
    destruct (rate_loop io prev cur cs), (rate_loop io prev' cur cs). exact IH.
  - destruct (get_process_io (io (pid c))) as [r w].
    specialize (IH (<[pid c:=(r, w)]> cur)).
    destruct (rate_loop io prev (<[pid c:=(r, w)]> cur) cs),
             (rate_loop io prev' (<[pid c:=(r, w)]> cur) cs). exact IH.
Qed.

Lemma rate_loop_fst_exact io prev cur conns p :
  fst (rate_loop io prev cur conns) !! p =
  if existsb (fun c => negb (String.eqb (pid c) NA) && String.eqb (pid c) p) conns
  then Some (get_process_io (io p)) else cur !! p.
Proof.
  revert cur. induction conns as [|c cs IH]; intros cur; simpl; [reflexivity|].
  destruct (String.eqb (pid c) NA) eqn:Hna; simpl.
  - specialize (IH cur). destruct (rate_loop io prev cur cs). exact IH.
  - destruct (get_process_io (io (pid c))) as [r w] eqn:Hio.
    specialize (IH (<[pid c:=(r, w)]> cur)).
    destruct (rate_loop io prev (<[pid c:=(r, w)]> cur) cs). simpl in *.
    rewrite IH. destruct (String.eqb (pid c) p) eqn:Hp; simpl.
    + apply String.eqb_eq in Hp. subst p. rewrite Hio.
      destruct (existsb _ cs); [reflexivity|]. apply lookup_insert_eq.
    + apply String.eqb_neq in Hp.
      destruct (existsb _ cs); [reflexivity|]. now apply lookup_insert_ne.
Qed.

Lemma count_app q q' :
  GtkView.count_updates (q ++ q') = (GtkView.count_updates q + GtkView.count_updates q')%nat.
Proof. unfold GtkView.count_updates. now rewrite List.filter_app, length_app. Qed.

Lemma count_cons t q :
  GtkView.count_updates (t :: q) =
  ((match t with TUpdate => 1 | _ => 0 end) + GtkView.count_updates q)%nat.
Proof. unfold GtkView.count_updates. destruct t; reflexivity. Qed.

Lemma count_nil : GtkView.count_updates [] = 0%nat.
Proof. reflexivity. Qed.

Lemma update_connections_count e s :
  GtkView.count_updates (main_queue (update_connections e s)) =
  S (GtkView.count_updates (main_queue s)).
Proof.
  destruct (update_connections_spec e s) as (_&_&_&Hq&_).
  rewrite Hq, count_app, count_cons, count_nil. lia.
Qed.

Lemma run_task_count e s t :
  GtkView.count_updates (main_queue (run_task e s t)) =
  S (GtkView.count_updates (main_queue s)).
Proof.
  destruct t; simpl; [apply update_connections_count| |];
    unfold delayed_refresh, update_resolution_cache;
    now rewrite update_connections_count.
Qed.

Lemma header_count e s col :
  GtkView.count_updates (main_queue (on_header_clicked e s col)) =
  S (GtkView.count_updates (main_queue s)).
Proof.
  unfold on_header_clicked. rewrite update_connections_count.
  now destruct (sort_column s =? col)%nat.
Qed.

Lemma refresh_count e s :
  GtkView.count_updates (main_queue (on_refresh e s)) =
  S (GtkView.count_updates (main_queue s)).
Proof. unfold on_refresh. now rewrite update_connections_count. Qed.

Lemma step_count s s' :
  step s s' ->
  (GtkView.count_updates (main_queue s) <= GtkView.count_updates (main_queue s'))%nat.
Proof.
  intros Hs. destruct Hs as [e s pre t post Hq|e s col|s b|e s|s pre th post Hsp Hsem
                            |s pre th post outcome Hinf].
  - rewrite run_task_count. simpl. rewrite Hq, !count_app, count_cons.
    destruct t; lia.
  - rewrite header_count. lia.
  - unfold on_resolve_toggled. cbn zeta.
    destruct b; cbn [main_queue set_queue set_resolution];
      rewrite count_app, count_cons, count_nil; lia.
  - rewrite refresh_count. lia.
  - simpl. lia.
  - simpl. rewrite count_app, count_cons, count_nil. lia.
Qed.

Lemma reachable_count s :
  reachable s -> (1 <= GtkView.count_updates (main_queue s))%nat.
Proof.
  induction 1 as [e|s s' _ IH Hs].
  - unfold init_state. rewrite update_connections_count. lia.
  - pose proof (step_count s s' Hs). lia.
Qed.

Lemma zero_prev_rates e s :
  Forall (fun r => rx_rate r = 0 /\ tx_rate r = 0)
    (shown (update_connections e (set_prev_io ∅ s))).
Proof.
  pose proof (shown_rates e (set_prev_io ∅ s)) as H.
  simpl in H. eapply List.Forall_impl; [|exact H].
  intros r Hr. unfold rate_ok in Hr.
  destruct (String.eqb (pid (rc_conn r)) NA); [exact Hr|].
  rewrite lookup_empty in Hr. exact Hr.
Qed.

End GtkMore.

(** The Refresh button ([on_refresh]) first empties [prev_io]: every row
    of the cycle it runs shows 0 B/s received and sent, while the counters
    it stores for the next cycle are those an ordinary cycle would store;
    it also queues one more periodic update. *)
Theorem on_refresh_zero_rates e s :
  Forall (fun r => rx_rate r = 0 /\ tx_rate r = 0) (Gtk.shown (Gtk.on_refresh e s)) /\
  Gtk.prev_io (Gtk.on_refresh e s) = Gtk.prev_io (Gtk.update_connections e s) /\
  Gtk.main_queue (Gtk.on_refresh e s) = Gtk.main_queue s ++ [Gtk.TUpdate].
Proof.
  split; [apply GtkMore.zero_prev_rates|].
  unfold Gtk.on_refresh.
  destruct (GtkFacts.update_connections_spec e (Gtk.set_prev_io ∅ s)) as (H1&_&_&Hq&_).
  destruct (GtkFacts.update_connections_spec e s) as (H2&_).
  split; [|exact Hq].
  rewrite H1, H2. unfold GtkFacts.cycle_rates. apply GtkMore.rate_loop_fst_prev.
Qed.

(** After a GTK cycle, [prev_io] holds exactly the pids of the cycle's
    connections with a known pid (LOCALHOST ones included), each mapped
    to the counters [get_process_io] read in this cycle; every other pid
    is dropped. *)
Theorem gtk_prev_io_exact e s p :
  Gtk.prev_io (Gtk.update_connections e s) !! p =
  if existsb (fun c => negb (String.eqb (pid c) NA) && String.eqb (pid c) p) (env_conns e)
  then Some (get_process_io (env_io e p)) else None.
Proof.
  destruct (GtkFacts.update_connections_spec e s) as (H&_). rewrite H.
  unfold GtkFacts.cycle_rates. rewrite GtkMore.rate_loop_fst_exact.
  destruct (existsb _ _); [reflexivity|apply lookup_empty].
Qed.

(** Periodic updates accumulate in the GTK window: every cycle ends with
    [GLib.timeout_add(self.update_interval, self.update_connections)],
    and no pending one is ever removed, so a header click, a Refresh, a
    delayed refresh and every finished lookup each add one more chain of
    3-second updates; no step ever lowers their number, and every
    reachable state has at least one pending. *)
Theorem gtk_update_timers_accumulate :
  (forall s s', Gtk.step s s' ->
     (GtkView.count_updates (Gtk.main_queue s) <=
      GtkView.count_updates (Gtk.main_queue s'))%nat) /\
  (forall e s col, GtkView.count_updates (Gtk.main_queue (Gtk.on_header_clicked e s col)) =
                   S (GtkView.count_updates (Gtk.main_queue s))) /\
  (forall e s, GtkView.count_updates (Gtk.main_queue (Gtk.on_refresh e s)) =
               S (GtkView.count_updates (Gtk.main_queue s))) /\
  (forall e s t, GtkView.count_updates (Gtk.main_queue (Gtk.run_task e s t)) =
                 S (GtkView.count_updates (Gtk.main_queue s))) /\
  (forall s, Gtk.reachable s -> (1 <= GtkView.count_updates (Gtk.main_queue s))%nat).
Proof.
  split; [exact GtkMore.step_count|].
  split; [exact GtkMore.header_count|].
  split; [exact GtkMore.refresh_count|].
  split; [exact GtkMore.run_task_count|exact GtkMore.reachable_count].
Qed.

(** After switching resolution off and on again, the next cycle starts a
    second lookup thread for an IP whose first lookup is still queued:
    switching off empties [resolution_pending] but does not cancel the
    threads already started. *)
Theorem gtk_toggle_duplicate_lookups :
  exists s, Gtk.reachable s /\
    length (List.filter (fun th => String.eqb (fst th) "93.184.216.34") (Gtk.spawned s)) = 2%nat /\
    "93.184.216.34" ∈ Gtk.resolution_pending s.
Proof.
  set (c0 := mkConn "tcp" "ESTAB" "192.168.1.5:40000" "93.184.216.34:443" "curl" NA).
  set (e0 := mkEnv [c0] (fun _ => None) (fun _ => None)).
  set (s1 := Gtk.on_resolve_toggled (Gtk.init_state e0) false).
  set (s2 := Gtk.on_resolve_toggled s1 true).
  exists (Gtk.run_task e0 (Gtk.set_queue ([] ++ [Gtk.TDelayed; Gtk.TDelayed]) s2) Gtk.TUpdate).
  split.
  - apply (Gtk.reach_step s2).
    + apply (Gtk.reach_step s1); [|apply Gtk.step_toggle].
      apply (Gtk.reach_step (Gtk.init_state e0)); [apply Gtk.reach_init|apply Gtk.step_toggle].
    + apply (Gtk.step_task e0 s2 [] Gtk.TUpdate [Gtk.TDelayed; Gtk.TDelayed]).
      vm_compute. reflexivity.
  - split; [vm_compute; reflexivity|].
    refine (bool_decide_unpack _ _). vm_compute. exact I.
Qed.

(** Switching resolution off empties the cache, but a lookup started
    before still completes and its [update_resolution_cache] writes the
    host name into the cache while resolution is off; the name is used as
    soon as resolution is switched on again, without a new lookup. *)
Theorem gtk_cache_filled_while_disabled :
  exists s, Gtk.reachable s /\ Gtk.resolve_hosts s = false /\
    Gtk.resolution_cache s !! "93.184.216.34:443" = Some "example.com:443" /\
    Gtk.resolve_address (Gtk.on_resolve_toggled s true) "93.184.216.34:443" =
      ("example.com:443", Gtk.on_resolve_toggled s true).
Proof.
  set (c0 := mkConn "tcp" "ESTAB" "192.168.1.5:40000" "93.184.216.34:443" "curl" NA).
  set (e0 := mkEnv [c0] (fun _ => None) (fun _ => None)).
  set (th := ("93.184.216.34", "93.184.216.34:443")).
  set (t1 := Gtk.on_resolve_toggled (Gtk.init_state e0) false).
  set (t2 := Gtk.set_threads ([] ++ [("192.168.1.5", "192.168.1.5:40000")])
               (th :: Gtk.inflight t1) (pred (Gtk.sem t1)) t1).
  set (tc := Gtk.TCache (snd th) (Gtk.lookup_result (snd th) (Some "example.com"))).
  set (t3 := Gtk.set_queue (Gtk.main_queue t2 ++ [tc])
               (Gtk.set_threads (Gtk.spawned t2) ([] ++ []) (S (Gtk.sem t2)) t2)).
  exists (Gtk.run_task e0 (Gtk.set_queue ([Gtk.TUpdate; Gtk.TDelayed] ++ []) t3) tc).
  split.
  - apply (Gtk.reach_step t3).
    + apply (Gtk.reach_step t2).
      * apply (Gtk.reach_step t1).
        -- apply (Gtk.reach_step (Gtk.init_state e0)); [apply Gtk.reach_init|apply Gtk.step_toggle].
        -- apply (Gtk.step_acquire t1 [] th [("192.168.1.5", "192.168.1.5:40000")]);
             [vm_compute; reflexivity|apply Nat.ltb_lt; vm_compute; reflexivity].
      * apply (Gtk.step_finish t2 [] th [] (Some "example.com")). vm_compute. reflexivity.
    + apply (Gtk.step_task e0 t3 [Gtk.TUpdate; Gtk.TDelayed] tc []).
      vm_compute. reflexivity.
  - vm_compute. repeat split.
Qed.

(** The header labels of the GTK window: [__init__] calls
    [update_header_labels] before [create_tree_view] made any button, so
    the window opens with the plain header names, without a sort arrow,
    whatever the sort attributes; after a click on the header of column
    [col] (with the eight buttons in place) that column is the sort
    column, the order flips on a second click of the same column and is
    ascending on a new one, and exactly the label of that column carries
    the arrow of the new order. *)
Theorem gtk_header_labels e s labels col :
  length labels = 8%nat ->
  GtkView.setup_labels s = GtkView.headers /\
  let r := GtkView.header_click e s labels col in
  Gtk.sort_column (snd r) = col /\
  Gtk.sort_ascending (snd r) =
    (if (Gtk.sort_column s =? col)%nat then negb (Gtk.sort_ascending s) else true) /\
  forall i h, nth_error GtkView.headers i = Some h ->
    nth_error (fst r) i =
      Some (if (i =? col)%nat then (h ++ GtkView.arrow (Gtk.sort_ascending (snd r)))%string
            else h).
Proof.
  intros Hl. split; [reflexivity|]. cbv zeta.
  unfold GtkView.header_click, Gtk.on_header_clicked. cbn [fst snd].
  assert (Hl' : length labels = length GtkView.headers) by (rewrite Hl; reflexivity).
  destruct (Gtk.sort_column s =? col)%nat eqn:E.
  - apply Nat.eqb_eq in E.
    destruct (GtkFacts.update_connections_spec e
                (Gtk.set_sort (Gtk.sort_column s) (negb (Gtk.sort_ascending s)) s))
      as (_&_&_&_&Hc&Ha&_).
    rewrite Hc, Ha. cbn [Gtk.sort_column Gtk.sort_ascending Gtk.set_sort].
    split; [exact E|]. split; [reflexivity|].
    intros i h Hh. unfold GtkView.update_header_labels.
    rewrite E. exact (ViewFacts.relabel_nth 0 labels _ col _ Hl' i h Hh).
  - destruct (GtkFacts.update_connections_spec e (Gtk.set_sort col true s))
      as (_&_&_&_&Hc&Ha&_).
    rewrite Hc, Ha. cbn [Gtk.sort_column Gtk.sort_ascending Gtk.set_sort].
    split; [reflexivity|]. split; [reflexivity|].
    intros i h Hh. unfold GtkView.update_header_labels.
    exact (ViewFacts.relabel_nth 0 labels _ col _ Hl' i h Hh).
Qed.

(* ------------------------------------------------------------------ *)
(** ** Instances of the properties above                                *)
(* ------------------------------------------------------------------ *)


Lemma format_bytes_units_witness :
  let v := 1126 in
  (0 <= v < 2 ^ 53) /\
  GtkView.format_bytes v =
  Some (if v <? 2 ^ 10 then (Fmt.fmt1 v 1 ++ "B/s")%string
        else if v <? 2 ^ 20 then (Fmt.fmt1 v (2 ^ 10) ++ "KB/s")%string
        else if v <? 2 ^ 30 then (Fmt.fmt1 v (2 ^ 20) ++ "MB/s")%string
        else if v <? 2 ^ 40 then (Fmt.fmt1 v (2 ^ 30) ++ "GB/s")%string
        else (Fmt.fmt1 v (2 ^ 40) ++ "TB/s")%string).
Proof.
  cbv zeta.
  assert (Hv : 0 <= 1126 < 2 ^ 53)
    by (split; [apply Z.leb_le|apply Z.ltb_lt]; vm_compute; reflexivity).
  split; [exact Hv|]. exact (format_bytes_units 1126 Hv).
Defined.

(** 1048575 bytes/s, one byte under 1 MB/s, is shown as 1024.0 KB/s. *)
Lemma format_bytes_scaled_range_witness :
  let v := 1048575 in
  let k := 1 in
  (1 <= k <= 3 /\ 2 ^ (10 * k) <= v < 2 ^ (10 * (k + 1))) /\
  (let u := nth (Z.to_nat (k - 1)) ["KB"; "MB"; "GB"] "" in
   GtkView.format_bytes v = Some (Fmt.fmt1 v (2 ^ (10 * k)) ++ u ++ "/s")%string /\
   TerminalView.format_bytes v = Some (Fmt.fmt1 v (2 ^ (10 * k)) ++ u ++ "")%string /\
   10 <= Fmt.tenths v (2 ^ (10 * k)) <= 10240) /\
  Fmt.tenths v (2 ^ (10 * k)) = 10240 /\
  GtkView.format_bytes v = Some "1024.0KB/s".
Proof.
  cbv zeta.
  assert (Hk : 1 <= 1 <= 3) by lia.
  assert (Hv : 2 ^ (10 * 1) <= 1048575 < 2 ^ (10 * (1 + 1)))
    by (split; [apply Z.leb_le|apply Z.ltb_lt]; vm_compute; reflexivity).
  split; [split; [exact Hk|exact Hv]|].
  split; [exact (format_bytes_scaled_range 1048575 1 Hk Hv)|].
  split; vm_compute; reflexivity.
Defined.

(** A negative rate of -5 bytes is printed as -5.0B. *)
Lemma terminal_format_bytes_small_witness :
  let v := -5 in
  (- 2 ^ 53 < v < 1024) /\
  TerminalView.format_bytes v =
  Some ((if Z.ltb v 0 then "-" else "") ++ Fmt.str_of_z (Z.abs v) ++ ".0B")%string /\
  TerminalView.format_bytes v = Some "-5.0B".
Proof.
  cbv zeta.
  assert (Hv : - 2 ^ 53 < -5 < 1024)
    by (split; apply Z.ltb_lt; vm_compute; reflexivity).
  split; [exact Hv|]. split; [exact (terminal_format_bytes_small (-5) Hv)|].
  vm_compute. reflexivity.
Defined.

Lemma format_bytes_overflow_witness :
  (2 ^ 1024 <= Z.abs (- 2 ^ 1024)) /\
  TerminalView.format_bytes (- 2 ^ 1024) = None /\ GtkView.format_bytes (- 2 ^ 1024) = None.
Proof.
  assert (Hv : 2 ^ 1024 <= Z.abs (- 2 ^ 1024)) by (apply Z.leb_le; vm_compute; reflexivity).
  split; [exact Hv|]. exact (format_bytes_overflow _ Hv).
Defined.

(** A process whose [cmdline] is empty (a kernel thread) is shown as
    its pid in brackets. *)
Lemma get_process_path_text_witness :
  Py.contains_char "000" "42" = false /\
  (Gtk.get_process_path "42" (Some "") <> "" /\
   Py.contains_char "000" (Gtk.get_process_path "42" (Some "")) = false) /\
  Gtk.get_process_path "42" (Some "") = "[42]".
Proof.
  assert (Hp : Py.contains_char "000" "42" = false) by reflexivity.
  split; [exact Hp|]. split; [exact (get_process_path_text "42" (Some "") Hp)|].
  reflexivity.
Defined.

Lemma resolve_address_disabled_witness :
  let s := Gtk.on_resolve_toggled Gtk.init0 false in
  Gtk.resolve_hosts s = false /\
  Gtk.resolve_address s "93.184.216.34:443" =
    (Terminal.resolve_address "93.184.216.34:443", s).
Proof.
  cbv zeta.
  assert (Hs : Gtk.resolve_hosts (Gtk.on_resolve_toggled Gtk.init0 false) = false)
    by reflexivity.
  split; [exact Hs|]. exact (resolve_address_disabled _ _ Hs).
Defined.

(** A Refresh right after start: two periodic updates are then pending. *)
Lemma gtk_update_timers_accumulate_witness :
  let e0 := mkEnv [] (fun _ => None) (fun _ => None) in
  let s := Gtk.init_state e0 in
  let s' := Gtk.on_refresh e0 s in
  Gtk.step s s' /\ Gtk.reachable s' /\
  (GtkView.count_updates (Gtk.main_queue s) <= GtkView.count_updates (Gtk.main_queue s'))%nat /\
  (1 <= GtkView.count_updates (Gtk.main_queue s'))%nat /\
  GtkView.count_updates (Gtk.main_queue s') = 2%nat.
Proof.
  cbv zeta.
  set (e0 := mkEnv [] _ _).
  assert (Hst : Gtk.step (Gtk.init_state e0) (Gtk.on_refresh e0 (Gtk.init_state e0)))
    by apply Gtk.step_refresh.
  assert (Hr : Gtk.reachable (Gtk.on_refresh e0 (Gtk.init_state e0)))
    by (apply (Gtk.reach_step (Gtk.init_state e0)); [apply Gtk.reach_init|exact Hst]).
  destruct gtk_update_timers_accumulate as (Hmono&_&_&_&Hreach).
  split; [exact Hst|]. split; [exact Hr|].
  split; [exact (Hmono _ _ Hst)|]. split; [exact (Hreach _ Hr)|].
  vm_compute. reflexivity.
Defined.

(** A click on the Destination header of a window sorted by column 0:
    Destination gets the ascending arrow. *)
Lemma gtk_header_labels_witness :
  let e0 := mkEnv [] (fun _ => None) (fun _ => None) in
  length GtkView.headers = 8%nat /\
  nth_error (fst (GtkView.header_click e0 Gtk.init0 GtkView.headers 3)) 3 =
    Some ("Destination" ++ GtkView.arrow true)%string /\
  nth_error (fst (GtkView.header_click e0 Gtk.init0 GtkView.headers 3)) 0 =
    Some "Process(ID)".
Proof.
  cbv zeta.
  pose proof (gtk_header_labels (mkEnv [] (fun _ => None) (fun _ => None)) Gtk.init0
                GtkView.headers 3 eq_refl) as [_ H].
  cbv zeta in H. destruct H as (_&Ha&Hn).
  split; [reflexivity|]. split.
  - rewrite (Hn 3%nat "Destination" eq_refl), Ha. reflexivity.
  - rewrite (Hn 0%nat "Process(ID)" eq_refl). reflexivity.
Defined.
